(** * Calculator engine of [src/main.ts]: a shallow embedding

    [createCalculator] keeps one [CalculatorState] in its [state] variable
    and writes three text nodes of the page ([display], [expression],
    [error]).  Every handler is modelled as a function from the pair
    (state, page) to the new pair; a [try]/[catch] is a match on the
    completion of the [try] block.

    Conventions of the model:
    - JavaScript numbers are IEEE 754 binary64 values, here the Standard
      Library's [spec_float] at precision 53.  [parseFloat] and
      [Number.prototype.toString] follow ECMA-262 (shortest digits that
      round back, correctly rounded parsing); [Math.pow], whose result the
      standard leaves approximate, is a parameter of [power].
    - Strings are byte strings.  Everything the engine itself writes into
      [currentValue] is ASCII, so lengths and slices agree with the source.
    - The three page elements exist, as the non-null assertions of the
      source say, so writing to them never throws. *)

From Stdlib Require Import ZArith String Ascii List Bool Lia.
From Stdlib Require Import Floats.SpecFloat.
Import ListNotations.

(** ** JavaScript numbers *)

Module JSNumber.

Local Open Scope Z_scope.

Definition number : Type := spec_float.

Definition prec : Z := 53.
Definition emax : Z := 1024.

Definition NaN : number := S754_nan.
Definition posZero : number := S754_zero false.

(** The Number value of an integer literal of the source ([0], [1]). *)
Definition ofZ (z : Z) : number := binary_normalize prec emax z 0 false.

Definition plus (a b : number) : number := SFadd prec emax a b.
Definition minus (a b : number) : number := SFsub prec emax a b.
Definition times (a b : number) : number := SFmul prec emax a b.
Definition over (a b : number) : number := SFdiv prec emax a b.
Definition Math_sqrt (a : number) : number := SFsqrt prec emax a.

(** [a === b] and [a < b] on numbers: IEEE comparisons, false on NaN,
    and [-0 === 0]. *)
Definition strictEq (a b : number) : bool := SFeqb a b.
Definition lessThan (a b : number) : bool := SFltb a b.

(** *** Decimal to binary64

    [roundDecimal sg d e] is the Number nearest to [(-1)^sg * d * 10^e]
    (ties to even), the rounding of ECMA-262.  A non-negative
    exponent gives an integer, rounded by [binary_round]; a negative one
    gives a quotient of two integers, rounded from the quotient and the
    position of the remainder. *)
Definition roundDecimal (sg : bool) (d : Z) (e : Z) : number :=
  match d with
  | Zpos p =>
      if 0 <=? e then
        match Zpos p * 10 ^ e with
        | Zpos m => binary_round prec emax sg m 0
        | _ => S754_zero sg
        end
      else
        let '(q, e', l) := SFdiv_core_binary prec emax (Zpos p) 0 (10 ^ (- e)) 0 in
        binary_round_aux prec emax sg q e' l
  | _ => S754_zero sg
  end.

(** *** Characters and digits *)

Definition isDigit (c : ascii) : bool :=
  let n := Z.of_nat (nat_of_ascii c) in (48 <=? n) && (n <=? 57).

Definition digitValue (c : ascii) : Z := Z.of_nat (nat_of_ascii c) - 48.

(** White space that [parseFloat] skips.  Strings are byte strings here, so
    only the one-byte white space and line terminator characters appear. *)
Definition isWhiteSpace (c : ascii) : bool :=
  let n := nat_of_ascii c in
  existsb (Nat.eqb n) [9; 10; 11; 12; 13; 32]%nat.

Fixpoint trimStart (s : string) : string :=
  match s with
  | String c r => if isWhiteSpace c then trimStart r else s
  | EmptyString => s
  end.

(** The longest run of decimal digits at the head of [s], as digit values,
    and what follows it. *)
Fixpoint takeDigits (s : string) : list Z * string :=
  match s with
  | String c r =>
      if isDigit c then let '(ds, rest) := takeDigits r in (digitValue c :: ds, rest)
      else ([], s)
  | EmptyString => ([], s)
  end.

Definition digitsToZ (ds : list Z) : Z :=
  fold_left (fun acc d => 10 * acc + d) ds 0.

Definition startsWithStr (p s : string) : bool := String.prefix p s.

(** The value of an ExponentPart at the head of [s]; 0 when there is none
    (an [e] that no digit follows is not part of the literal). *)
Definition exponentPart (s : string) : Z :=
  match s with
  | String c r =>
      if (Ascii.eqb c "e" || Ascii.eqb c "E")%bool then
        let '(neg, r') :=
          match r with
          | String "-" t => (true, t)
          | String "+" t => (false, t)
          | _ => (false, r)
          end in
        match fst (takeDigits r') with
        | [] => 0
        | ds => if neg then - digitsToZ ds else digitsToZ ds
        end
      else 0
  | EmptyString => 0
  end.

(** [parseFloat]: skip white space, read the longest prefix that is a
    StrDecimalLiteral (sign, then [Infinity] or digits with an optional
    fraction and exponent), and round its value; [NaN] when no prefix is a
    literal. *)
Definition parseFloat (s : string) : number :=
  let s1 := trimStart s in
  let '(neg, s2) :=
    match s1 with
    | String "-" r => (true, r)
    | String "+" r => (false, r)
    | _ => (false, s1)
    end in
  if startsWithStr "Infinity" s2 then S754_infinity neg
  else
    let '(ip, s3) := takeDigits s2 in
    let '(fp, s4) :=
      match s3 with
      | String "." r => takeDigits r
      | _ => ([], s3)
      end in
    match ip ++ fp with
    | [] => NaN
    | ds => roundDecimal neg (digitsToZ ds) (exponentPart s4 - Z.of_nat (length fp))
    end.

(** *** Binary64 to decimal: [Number::toString] in radix 10

    A positive finite Number [m * 2^e] is kept as the exact fraction
    [xnum / xden]. *)
Definition xnum (m : positive) (e : Z) : Z := Zpos m * 2 ^ (Z.max e 0).
Definition xden (e : Z) : Z := 2 ^ (Z.max (- e) 0).

(** [x < 10^n] on that fraction. *)
Definition belowPow10 (m : positive) (e n : Z) : bool :=
  xnum m e * 10 ^ (Z.max (- n) 0) <? xden e * 10 ^ (Z.max n 0).

(** The least [n] from [n0] on with [x < 10^n]: the position of the decimal
    point relative to the first significant digit. *)
Fixpoint pointPosition (fuel : nat) (m : positive) (e n0 : Z) : Z :=
  match fuel with
  | O => n0
  | S f => if belowPow10 m e n0 then n0 else pointPosition f m e (n0 + 1)
  end.

(** A starting point below that position: [x >= 2^(b-1)] for the binary
    exponent [b], and [log10 2] is 0.30103 to five places, so
    [10^pointStart <= x] over the whole binary64 range and the position is
    at most four steps further. *)
Definition pointStart (m : positive) (e : Z) : Z :=
  (Zpos (digits2_pos m) + e - 1) * 30103 / 100000 - 1.

(** [floor (x / 10^t)]. *)
Definition scaledFloor (m : positive) (e t : Z) : Z :=
  (xnum m e * 10 ^ (Z.max (- t) 0)) / (xden e * 10 ^ (Z.max t 0)).

(** Sign of [(x - lo*10^t) - ((lo+1)*10^t - x)]: which of the two decimal
    neighbours of [x] on the grid [10^t] is closer. *)
Definition nearerSide (m : positive) (e t lo : Z) : comparison :=
  let xq := xnum m e * 10 ^ (Z.max (- t) 0) in
  let p := 10 ^ (Z.max t 0) * xden e in
  (xq - lo * p ?= (lo + 1) * p - xq).

Definition roundsTo (m : positive) (e : Z) (s t : Z) : bool :=
  match roundDecimal false s t with
  | S754_finite false m' e' => (Pos.eqb m m' && (e =? e'))%bool
  | _ => false
  end.

(** With [k] digits: the integer [s] (with [10^(k-1) <= s <= 10^k]) such
    that [s * 10^(n-k)] rounds to [x], the closest to [x] when both
    neighbours do, the even one on a tie. *)
Definition candidate (m : positive) (e n k : Z) : option Z :=
  let t := n - k in
  let lo := scaledFloor m e t in
  let hi := lo + 1 in
  match roundsTo m e lo t, roundsTo m e hi t with
  | true, true =>
      match nearerSide m e t lo with
      | Lt => Some lo
      | Gt => Some hi
      | Eq => Some (if Z.even lo then lo else hi)
      end
  | true, false => Some lo
  | false, true => Some hi
  | false, false => None
  end.

(** The smallest number of digits [k] from [k] on that has a candidate;
    seventeen digits always suffice for binary64. *)
Fixpoint shortest (fuel : nat) (m : positive) (e n k : Z) : Z * Z :=
  match fuel with
  | O => (scaledFloor m e (n - k), k)
  | S f =>
      match candidate m e n k with
      | Some s => (s, k)
      | None => shortest f m e n (k + 1)
      end
  end.

Definition digitChars : list ascii :=
  ["0"; "1"; "2"; "3"; "4"; "5"; "6"; "7"; "8"; "9"]%char.

Definition digitChar (d : Z) : ascii := nth (Z.to_nat d) digitChars "0"%char.

Fixpoint decimalAcc (fuel : nat) (z : Z) (acc : list ascii) : list ascii :=
  match fuel with
  | O => acc
  | S f => if z =? 0 then acc
           else decimalAcc f (z / 10) (digitChar (z mod 10) :: acc)
  end.

(** The decimal digits of a non-negative integer, most significant first;
    never empty ([0] gives one digit). *)
Definition decimalDigits (z : Z) : list ascii :=
  decimalAcc (Z.to_nat (Z.log2 z)) (z / 10) [digitChar (z mod 10)].

Definition implode (l : list ascii) : string := string_of_list_ascii l.

Definition zeros (n : Z) : list ascii := repeat "0"%char (Z.to_nat n).

(** Steps 6 to 12 of Number::toString for positive finite [x]: the digits
    of [s] laid out around the decimal point at position [n], or in
    exponent notation outside [-5 <= n <= 21]. *)
Definition layout (ds : list ascii) (n : Z) : string :=
  let k := Z.of_nat (length ds) in
  if (-5 <=? n) && (n <=? 21) then
    if k <=? n then implode (ds ++ zeros (n - k))
    else if 0 <? n then
      implode (firstn (Z.to_nat n) ds ++ "."%char :: skipn (Z.to_nat n) ds)
    else implode ("0"%char :: "."%char :: zeros (- n) ++ ds)
  else
    let ex := n - 1 in
    let sgn := if ex <? 0 then "-"%char else "+"%char in
    let tail := "e"%char :: sgn :: decimalDigits (Z.abs ex) in
    match ds with
    | [] => implode ("0"%char :: tail)
    | [d] => implode (d :: tail)
    | d :: rest => implode (d :: "."%char :: rest ++ tail)
    end.

Definition positiveToString (m : positive) (e : Z) : string :=
  let n := pointPosition 8 m e (pointStart m e) in
  let '(s, k) := shortest 17 m e n 1 in
  (* a candidate [10^k] is the single digit 1 one place further left *)
  if s =? 10 ^ k then layout (decimalDigits (10 ^ (k - 1))) (n + 1)
  else layout (decimalDigits s) n.

(** [Number.prototype.toString()], also the conversion used by template
    literals. *)
Definition toString (x : number) : string :=
  match x with
  | S754_nan => "NaN"
  | S754_zero _ => "0"
  | S754_infinity false => "Infinity"
  | S754_infinity true => "-Infinity"
  | S754_finite false m e => positiveToString m e
  | S754_finite true m e => String "-" (positiveToString m e)
  end.

End JSNumber.

Import JSNumber.
Open Scope string_scope.

(** ** Operations

    [type Operation = (a: number, b?: number) => number].  A call either
    returns a number or throws an [Error]; only the error's [message] is
    ever read, so a thrown error is its message.  The optional second
    argument is [None] when the call site passes one argument. *)

Inductive completion (A : Type) : Type :=
| Normal (a : A)
| Throw (message : string).
Arguments Normal {A} a.
Arguments Throw {A} message.

(** Whether a call returned rather than threw. *)
Definition returns {A : Type} (r : completion A) : bool :=
  match r with
  | Normal _ => true
  | Throw _ => false
  end.

Definition Operation : Type := number -> option number -> completion number.

(** A default parameter value [b = v]. *)
Definition orDefault (v : number) (b : option number) : number :=
  match b with Some x => x | None => v end.

Definition add : Operation := fun a b => Normal (plus a (orDefault (ofZ 0) b)).
Definition subtract : Operation := fun a b => Normal (minus a (orDefault (ofZ 0) b)).
Definition multiply : Operation := fun a b => Normal (times a (orDefault (ofZ 1) b)).
Definition divide : Operation := fun a b => Normal (over a (orDefault (ofZ 1) b)).
Definition sqrt : Operation := fun a _ => Normal (Math_sqrt a).

Section Power.

(** ECMA-262 leaves the value of [Math.pow] implementation-approximated,
    so the library function is a parameter of [power]. *)
Variable Math_pow : number -> number -> number.

Definition power : Operation :=
  fun a b => Normal (Math_pow a (orDefault (ofZ 1) b)).

End Power.

(** [validate] returns nothing or throws: [Some message] is a throw. *)
Definition withValidation (operation : Operation)
    (validate : number -> option number -> option string) : Operation :=
  fun a b =>
    match validate a b with
    | Some message => Throw message
    | None => operation a b
    end.

Definition safeDivide : Operation :=
  withValidation divide (fun _ b =>
    match b with
    | Some y => if strictEq y (ofZ 0) then Some "Cannot divide by zero" else None
    | None => None
    end).

Definition safeSqrt : Operation :=
  withValidation sqrt (fun a _ =>
    if lessThan a (ofZ 0) then Some "Negative number under root" else None).

(** ** State and page *)

Record CalculatorState : Type := {
  currentValue : string;
  previousValue : option number;
  operation : option Operation;
  shouldResetDisplay : bool;
  currentExpression : string
}.

(** The text content of the elements [display], [expression] and [error]. *)
Record Page : Type := {
  display : string;
  expression : string;
  error : string
}.

(** The closure of [createCalculator]: its [state] variable and the page
    its handlers write to. *)
Record Calculator : Type := {
  state : CalculatorState;
  page : Page
}.

Definition initialState : CalculatorState :=
  {| currentValue := "0"; previousValue := None; operation := None;
     shouldResetDisplay := false; currentExpression := "" |}.

Definition createCalculator (p : Page) : Calculator :=
  {| state := initialState; page := p |}.

Definition withCurrentValue (v : string) (s : CalculatorState) : CalculatorState :=
  {| currentValue := v; previousValue := previousValue s; operation := operation s;
     shouldResetDisplay := shouldResetDisplay s;
     currentExpression := currentExpression s |}.

Definition withShouldResetDisplay (b : bool) (s : CalculatorState) : CalculatorState :=
  {| currentValue := currentValue s; previousValue := previousValue s;
     operation := operation s; shouldResetDisplay := b;
     currentExpression := currentExpression s |}.

Definition setState (s : CalculatorState) (c : Calculator) : Calculator :=
  {| state := s; page := page c |}.

Definition updateDisplay (value : string) (c : Calculator) : Calculator :=
  {| state := state c;
     page := {| display := value;
                expression := currentExpression (state c);
                error := error (page c) |} |}.

Definition setError (message : string) (c : Calculator) : Calculator :=
  {| state := state c;
     page := {| display := display (page c);
                expression := expression (page c);
                error := message |} |}.

Definition clearError (c : Calculator) : Calculator := setError "" c.

(** ** String helpers: [startsWith('-')], [slice(0, -1)], [slice(1)] *)

Definition startsWithMinus (s : string) : bool :=
  match s with
  | String c _ => Ascii.eqb c "-"
  | EmptyString => false
  end.

Definition dropLast (s : string) : string :=
  String.substring 0 (String.length s - 1) s.

Definition dropFirst (s : string) : string :=
  match s with
  | String _ r => r
  | EmptyString => EmptyString
  end.

(** ** Handlers *)

Definition handleBackspace (c : Calculator) : Calculator :=
  let s := state c in
  let c' :=
    if (String.length (currentValue s) =? 1)%nat
       || (startsWithMinus (currentValue s)
           && (String.length (currentValue s) =? 2)%nat)
    then setState (withCurrentValue "0" s) c
    else setState (withCurrentValue (dropLast (currentValue s)) s) c in
  updateDisplay (currentValue (state c')) c'.

Definition handleSign (c : Calculator) : Calculator :=
  let s := state c in
  if String.eqb (currentValue s) "0" then c
  else
    let newValue :=
      if startsWithMinus (currentValue s) then dropFirst (currentValue s)
      else String "-" (currentValue s) in
    updateDisplay newValue (setState (withCurrentValue newValue s) c).

(** The [try] block of [performOperation], entered once both guards passed:
    the new state, or the message of the error the operation threw. *)
Definition performOperationTry (op : Operation) (prev : number)
    (s : CalculatorState) : completion CalculatorState :=
  let current := parseFloat (currentValue s) in
  match op prev (Some current) with
  | Normal result =>
      Normal {| currentValue := toString result;
                previousValue := None;
                operation := None;
                shouldResetDisplay := true;
                currentExpression :=
                  currentExpression s ++ " " ++ toString current ++ " =" |}
  | Throw message => Throw message
  end.

Definition performOperation (c : Calculator) : Calculator :=
  let s := state c in
  match operation s, previousValue s with
  | Some op, Some prev =>
      match performOperationTry op prev s with
      | Normal s' =>
          let c1 := clearError (setState s' c) in
          updateDisplay (currentValue (state c1)) c1
      | Throw message =>
          let c1 := setError message c in
          setState (withShouldResetDisplay true (state c1)) c1
      end
  | _, _ => c
  end.

Definition handleNumber (value : string) (c : Calculator) : Calculator :=
  let s := state c in
  let c' :=
    if shouldResetDisplay s then
      setState {| currentValue := value; previousValue := previousValue s;
                  operation := operation s; shouldResetDisplay := false;
                  currentExpression := currentExpression s |} c
    else
      setState (withCurrentValue
                  (if String.eqb (currentValue s) "0" then value
                   else currentValue s ++ value) s) c in
  updateDisplay (currentValue (state c')) c'.

(** The [try] block of [handleOperation] up to its last assignment to
    [state]. *)
Definition handleOperationTry (op : Operation) (opSymbol : string) (isUnary : bool)
    (s : CalculatorState) : completion CalculatorState :=
  match negb isUnary, previousValue s, operation s, negb (shouldResetDisplay s) with
  | true, Some prev, Some pending, true =>
      let currentNum := parseFloat (currentValue s) in
      match pending prev (Some currentNum) with
      | Normal result =>
          Normal {| currentValue := toString result;
                    previousValue := Some result;
                    operation := Some op;
                    shouldResetDisplay := true;
                    currentExpression :=
                      currentExpression s ++ " " ++ toString currentNum
                        ++ " " ++ opSymbol |}
      | Throw message => Throw message
      end
  | _, _, _, _ =>
      if isUnary then
        match op (parseFloat (currentValue s)) None with
        | Normal result =>
            Normal {| currentValue := toString result;
                      previousValue := previousValue s;
                      operation := operation s;
                      shouldResetDisplay := true;
                      currentExpression :=
                        opSymbol ++ "(" ++ currentValue s ++ ")" |}
        | Throw message => Throw message
        end
      else
        Normal {| currentValue := currentValue s;
                  previousValue := Some (parseFloat (currentValue s));
                  operation := Some op;
                  shouldResetDisplay := true;
                  currentExpression := currentValue s ++ " " ++ opSymbol |}
  end.

Definition handleOperation (op : Operation) (opSymbol : string) (isUnary : bool)
    (c : Calculator) : Calculator :=
  match handleOperationTry op opSymbol isUnary (state c) with
  | Normal s' =>
      let c1 := setState s' c in
      clearError (updateDisplay (currentValue (state c1)) c1)
  | Throw message =>
      setError message (setState (withShouldResetDisplay true (state c)) c)
  end.

Definition handleClear (c : Calculator) : Calculator :=
  clearError (updateDisplay "0" (setState initialState c)).

(** ** Commands *)

Inductive Command : Type :=
| InputDigit (d : string)
| ApplyBinaryOperator (op : Operation) (symbol : string) (isUnary : bool)
| Equals
| Backspace
| ToggleSign
| Clear.

Definition execute (cmd : Command) (c : Calculator) : Calculator :=
  match cmd with
  | InputDigit d => handleNumber d c
  | ApplyBinaryOperator op symbol isUnary => handleOperation op symbol isUnary c
  | Equals => performOperation c
  | Backspace => handleBackspace c
  | ToggleSign => handleSign c
  | Clear => handleClear c
  end.

Definition run (cmds : list Command) (c : Calculator) : Calculator :=
  fold_left (fun acc cmd => execute cmd acc) cmds c.

(** A page whose three elements start empty. *)
Definition blankPage : Page := {| display := ""; expression := ""; error := "" |}.

(** ** Predicates used in the statements *)

(** A digit input: one character, a decimal digit or the point. *)
Definition isDigitInput (d : string) : bool :=
  match d with
  | String c EmptyString => isDigit c || Ascii.eqb c "."
  | _ => false
  end.

Definition validCommand (cmd : Command) : bool :=
  match cmd with
  | InputDigit d => isDigitInput d
  | _ => true
  end.

(** A numeric literal in text form, in the words of the specification:
    an optional sign, then digits with at most one point among them (and
    at least one digit, so never empty). *)
Definition isNumericLiteral (s : string) : bool :=
  let body := list_ascii_of_string (if startsWithMinus s then dropFirst s else s) in
  forallb (fun c => isDigit c || Ascii.eqb c ".") body
  && (length (filter (fun c => Ascii.eqb c ".") body) <=? 1)%nat
  && existsb isDigit body.

(** Non-empty text that starts with a character other than the sign. *)
Definition unsignedHead (s : string) : bool :=
  match s with
  | String c _ => negb (Ascii.eqb c "-")
  | EmptyString => false
  end.

(** At most one leading sign, followed by at least one character. *)
Definition signedNonEmpty (s : string) : bool :=
  if startsWithMinus s then unsignedHead (dropFirst s) else unsignedHead s.

(** [operation] and [previousValue] are both absent or both present. *)
Definition pendingConsistent (s : CalculatorState) : Prop :=
  (operation s = None /\ previousValue s = None)
  \/ (operation s <> None /\ previousValue s <> None).

(** The commands that only edit the number being typed. *)
Definition isEditing (cmd : Command) : bool :=
  match cmd with
  | InputDigit _ | Backspace | ToggleSign => true
  | _ => false
  end.

(** A character other than the sign. *)
Definition notMinus (c : ascii) : Prop := Ascii.eqb c "-" = false.

(** Text that begins with two signs. *)
Definition doubleSigned (s : string) : bool :=
  startsWithMinus s && startsWithMinus (dropFirst s).

(** What [handleOperation] leaves behind when its [try] block threw
    [message]: the flag is set, every other field and the two value
    elements of the page are as before, and the message is in [error]. *)
Definition rolledBack (message : string) (c c' : Calculator) : Prop :=
  shouldResetDisplay (state c') = true
  /\ currentValue (state c') = currentValue (state c)
  /\ previousValue (state c') = previousValue (state c)
  /\ operation (state c') = operation (state c)
  /\ currentExpression (state c') = currentExpression (state c)
  /\ error (page c') = message
  /\ display (page c') = display (page c)
  /\ expression (page c') = expression (page c).

(** 5 + 5 / 0, with the zero just typed: the next operator chains. *)
Definition aboutToDivideByZero : Calculator :=
  run [InputDigit "5"; ApplyBinaryOperator add "+" false; InputDigit "5";
       ApplyBinaryOperator safeDivide "/" false; InputDigit "0"]
      (createCalculator blankPage).

(** The chaining operator [*] pressed there: the division throws. *)
Definition failedChaining : Calculator :=
  handleOperation multiply "*" false aboutToDivideByZero.

(** 9 + 16 with the second operand just typed. *)
Definition ninePlusSixteen : Calculator :=
  run [InputDigit "9"; ApplyBinaryOperator add "+" false;
       InputDigit "1"; InputDigit "6"]
      (createCalculator blankPage).

(** 1 / 2 = -0.5 after a sign change, then two backspaces: "-0". *)
Definition minusZeroShown : Calculator :=
  run [InputDigit "1"; ApplyBinaryOperator safeDivide "/" false; InputDigit "2";
       Equals; ToggleSign; Backspace; Backspace]
      (createCalculator blankPage).

(** ** The page adapter: clicks and keys

    The listeners installed on [DOMContentLoaded] and [handleKeyPress].
    An object literal used as a table is an association list. *)

Fixpoint lookup {A : Type} (key : string) (table : list (string * A)) : option A :=
  match table with
  | (k, v) :: rest => if String.eqb key k then Some v else lookup key rest
  | [] => None
  end.

Definition operationSymbols : list (string * string) :=
  [("add", "+"); ("subtract", "-"); ("multiply", "×"); ("divide", "÷");
   ("power", "^"); ("sqrt", "√")].

Definition keyOperations : list (string * string) :=
  [("+", "add"); ("-", "subtract"); ("*", "multiply"); ("/", "divide");
   ("^", "power"); ("Enter", "equals"); ("Escape", "clear"); ("Delete", "clear");
   ("c", "clear"); ("=", "equals"); ("Backspace", "backspace"); ("r", "sqrt");
   ("_", "sign")].

(** [/[0-9.]/.test(key)]: the pattern is not anchored, so it asks whether
    some character of [key] is a digit or the point. *)
Definition hasDigitOrPoint (key : string) : bool :=
  existsb (fun ch => isDigit ch || Ascii.eqb ch ".") (list_ascii_of_string key).

(** [s.includes('.')]. *)
Definition includesPoint (s : string) : bool :=
  existsb (fun ch => Ascii.eqb ch ".") (list_ascii_of_string s).

Section Adapter.

(** The library function behind [power], as before. *)
Variable Math_pow : number -> number -> number.

(** The page itself is not part of the sources: which [data-operation]
    values have a button is a parameter. *)
Variable hasOperationButton : string -> bool.

Definition operations : list (string * Operation) :=
  [("add", add); ("subtract", subtract); ("multiply", multiply);
   ("divide", safeDivide); ("power", power Math_pow); ("sqrt", safeSqrt)].

(** The click listener of a [data-value] button. *)
Definition clickValue (value : string) (c : Calculator) : Calculator :=
  handleNumber value c.

(** The click listener of a [data-operation] button.  A name that is in
    neither table would pass [undefined] to [handleOperation], which
    [Operation] does not cover: the result is [None] there. *)
Definition clickOperation (operation : string) (c : Calculator) : option Calculator :=
  if String.eqb operation "clear" then Some (handleClear c)
  else if String.eqb operation "equals" then Some (performOperation c)
  else if String.eqb operation "backspace" then Some (handleBackspace c)
  else if String.eqb operation "sign" then Some (handleSign c)
  else
    let isUnary := existsb (String.eqb operation) ["sqrt"] in
    match lookup operation operations, lookup operation operationSymbols with
    | Some op, Some symbol => Some (handleOperation op symbol isUnary c)
    | _, _ => None
    end.

(** [handleKeyPress] on an event whose [key] is given: whether
    [preventDefault] was called, and the calculator afterwards.  A key that
    maps to an operation clicks the button of that operation if the page
    has one.  (Key names are those of keyboard events; none of them is a
    property inherited by the table object.) *)
Definition handleKeyPress (key : string) (c : Calculator) : option (bool * Calculator) :=
  if hasDigitOrPoint key then
    if String.eqb key "." && includesPoint (currentValue (state c)) then Some (true, c)
    else Some (true, handleNumber key c)
  else
    match lookup key keyOperations with
    | Some operation =>
        if hasOperationButton operation then
          match clickOperation operation c with
          | Some c' => Some (true, c')
          | None => None
          end
        else Some (true, c)
    | None => Some (false, c)
    end.

(** A sequence of key presses. *)
Fixpoint pressKeys (keys : list string) (c : Calculator) : option Calculator :=
  match keys with
  | [] => Some c
  | key :: rest =>
      match handleKeyPress key c with
      | Some (_, c') => pressKeys rest c'
      | None => None
      end
  end.

End Adapter.

(** The number of points in a text. *)
Definition countPoints (s : string) : nat :=
  length (filter (fun ch => Ascii.eqb ch ".") (list_ascii_of_string s)).


(** An infinity of either sign. *)
Definition isInfinite (x : number) : bool :=
  match x with
  | S754_infinity _ => true
  | _ => false
  end.

(** The two value elements of the page show what the state holds. *)
Definition synced (c : Calculator) : Prop :=
  display (page c) = currentValue (state c)
  /\ expression (page c) = currentExpression (state c).


(** The inputs of a run of digit presses, one after the other. *)
Definition joined (ds : list string) : string :=
  fold_right String.append EmptyString ds.

(** ** Shape of [toString] *)

Section ToStringShape.

Local Open Scope Z_scope.

Lemma digitChar_notMinus (d : Z) : notMinus (digitChar d).
Proof.
  unfold notMinus, digitChar.
  generalize (Z.to_nat d); intros n.
  do 10 (destruct n as [|n]; [reflexivity|]).
  simpl. destruct n; reflexivity.
Qed.

Lemma decimalAcc_shape (fuel : nat) :
  forall z acc, acc <> [] -> Forall notMinus acc ->
    decimalAcc fuel z acc <> [] /\ Forall notMinus (decimalAcc fuel z acc).
Proof.
  induction fuel as [|f IH]; intros z acc Hne Hall; simpl.
  - split; assumption.
  - destruct (z =? 0).
    + split; assumption.
    + apply IH.
      * discriminate.
      * constructor; [apply digitChar_notMinus | assumption].
Qed.

Lemma decimalDigits_shape (z : Z) :
  decimalDigits z <> [] /\ Forall notMinus (decimalDigits z).
Proof.
  unfold decimalDigits. apply decimalAcc_shape.
  - discriminate.
  - constructor; [apply digitChar_notMinus | constructor].
Qed.

Lemma layout_unsignedHead (ds : list ascii) (n : Z) :
  ds <> [] -> Forall notMinus ds -> unsignedHead (layout ds n) = true.
Proof.
  intros Hne Hall. destruct ds as [|d rest]; [congruence|].
  assert (Hd : Ascii.eqb d "-" = false) by (inversion Hall; assumption).
  unfold layout.
  destruct ((-5 <=? n) && (n <=? 21))%bool.
  - destruct (Z.of_nat (length (d :: rest)) <=? n).
    + simpl. now rewrite Hd.
    + destruct (0 <? n) eqn:Hn.
      * apply Z.ltb_lt in Hn.
        destruct (Z.to_nat n) as [|k] eqn:Hk; [lia|].
        simpl. now rewrite Hd.
      * reflexivity.
  - destruct rest as [|d' rest']; simpl; now rewrite Hd.
Qed.

Lemma positiveToString_unsignedHead (m : positive) (e : Z) :
  unsignedHead (positiveToString m e) = true.
Proof.
  unfold positiveToString.
  destruct (shortest 17 m e (pointPosition 8 m e (pointStart m e)) 1) as [s k].
  destruct (s =? 10 ^ k);
    apply layout_unsignedHead; apply decimalDigits_shape.
Qed.

Lemma toString_signedNonEmpty (x : number) : signedNonEmpty (toString x) = true.
Proof.
  destruct x as [sg|sg| |sg m e]; try destruct sg; try reflexivity;
    unfold signedNonEmpty; simpl.
  - apply positiveToString_unsignedHead.
  - pose proof (positiveToString_unsignedHead m e) as H.
    destruct (positiveToString m e) as [|c r]; [discriminate|].
    simpl in *. destruct (Ascii.eqb c "-"); [discriminate | reflexivity].
Qed.

End ToStringShape.

(** ** Digit entry on a zero display *)

(** C1, as the code has it: with [shouldResetDisplay] false and
    [currentValue] exactly "0", [handleNumber] replaces the zero by whatever
    is input.  So "0" leaves "0", a non-zero digit [d] gives [d], and the
    point gives "." (it is substituted, not appended). *)
Theorem handleNumber_replaces_zero (c : Calculator) :
  shouldResetDisplay (state c) = false ->
  currentValue (state c) = "0" ->
  (forall d, currentValue (state (handleNumber d c)) = d)
  /\ currentValue (state (handleNumber "0" c)) = "0"
  /\ currentValue (state (handleNumber "." c)) = ".".
Proof.
  intros Hreset Hzero.
  assert (H : forall d, currentValue (state (handleNumber d c)) = d).
  { intros d. unfold handleNumber. rewrite Hreset, Hzero. reflexivity. }
  repeat split; auto.
Qed.

Lemma handleNumber_replaces_zero_witness :
  (forall d, currentValue (state (handleNumber d (createCalculator blankPage))) = d)
  /\ currentValue (state (handleNumber "0" (createCalculator blankPage))) = "0"
  /\ currentValue (state (handleNumber "." (createCalculator blankPage))) = ".".
Proof.
  apply (handleNumber_replaces_zero (createCalculator blankPage)); reflexivity.
Defined.

(** C1 as stated fails: on the initial state (flag false, value "0") the
    point gives ".", not "0.". *)
Lemma handleNumber_point_on_zero_counterexample :
  shouldResetDisplay (state (createCalculator blankPage)) = false
  /\ currentValue (state (createCalculator blankPage)) = "0"
  /\ currentValue (state (handleNumber "." (createCalculator blankPage))) = "."
  /\ currentValue (state (handleNumber "." (createCalculator blankPage))) <> "0.".
Proof.
  repeat split; try reflexivity. simpl. discriminate.
Qed.

(** ** Equals without a pending operation *)

(** C6: when [operation] or [previousValue] is absent, [performOperation]
    returns at once: state and page are unchanged, also when it is called
    twice in a row. *)
Theorem performOperation_without_pending (c : Calculator) :
  operation (state c) = None \/ previousValue (state c) = None ->
  performOperation c = c
  /\ performOperation (performOperation c) = c.
Proof.
  intros H.
  assert (E : performOperation c = c).
  { unfold performOperation.
    destruct H as [H | H]; rewrite H; [reflexivity|].
    destruct (operation (state c)); reflexivity. }
  split; [exact E | now rewrite !E].
Qed.

Lemma performOperation_without_pending_witness :
  performOperation (createCalculator blankPage) = createCalculator blankPage
  /\ performOperation (performOperation (createCalculator blankPage))
     = createCalculator blankPage.
Proof.
  apply (performOperation_without_pending (createCalculator blankPage)).
  left. reflexivity.
Defined.

(** ** The pending pair *)

Lemma handleOperationTry_pending (op : Operation) (sym : string) (u : bool)
    (s s' : CalculatorState) :
  pendingConsistent s ->
  handleOperationTry op sym u s = Normal s' ->
  pendingConsistent s'.
Proof.
  unfold handleOperationTry. intros Hs H.
  assert (Hset : forall v b e,
             pendingConsistent
               {| currentValue := v; previousValue := Some b; operation := Some op;
                  shouldResetDisplay := true; currentExpression := e |}).
  { intros. right. split; discriminate. }
  destruct u; simpl in H.
  - destruct (op (parseFloat (currentValue s)) None); inversion H; subst.
    exact Hs.
  - destruct (previousValue s) as [prev|]; [|inversion H; apply Hset].
    destruct (operation s) as [pending|]; [|inversion H; apply Hset].
    destruct (negb (shouldResetDisplay s)); [|inversion H; apply Hset].
    destruct (pending prev (Some (parseFloat (currentValue s))));
      inversion H; apply Hset.
Qed.

Lemma execute_preserves_pending (cmd : Command) (c : Calculator) :
  pendingConsistent (state c) -> pendingConsistent (state (execute cmd c)).
Proof.
  intros H. destruct cmd as [d|op sym u| | | |]; simpl.
  - unfold handleNumber. destruct (shouldResetDisplay (state c)); exact H.
  - unfold handleOperation.
    destruct (handleOperationTry op sym u (state c)) as [s'|msg] eqn:E.
    + simpl. eapply handleOperationTry_pending; eauto.
    + exact H.
  - unfold performOperation.
    destruct (operation (state c)) as [op|] eqn:Ho; [|exact H].
    destruct (previousValue (state c)) as [prev|] eqn:Hp; [|exact H].
    unfold performOperationTry.
    destruct (op prev (Some (parseFloat (currentValue (state c))))).
    + left. split; reflexivity.
    + simpl. unfold pendingConsistent. simpl. rewrite Ho, Hp.
      right. split; discriminate.
  - unfold handleBackspace.
    destruct ((String.length (currentValue (state c)) =? 1)%nat
              || startsWithMinus (currentValue (state c))
                 && (String.length (currentValue (state c)) =? 2)%nat); exact H.
  - unfold handleSign. destruct (String.eqb (currentValue (state c)) "0"); exact H.
  - left. split; reflexivity.
Qed.

Lemma run_app (cmds1 cmds2 : list Command) (c : Calculator) :
  run (cmds1 ++ cmds2) c = run cmds2 (run cmds1 c).
Proof. unfold run. apply fold_left_app. Qed.

Lemma run_invariant (P : Calculator -> Prop) :
  (forall cmd c, P c -> P (execute cmd c)) ->
  forall cmds c, P c -> P (run cmds c).
Proof.
  intros Hstep cmds. induction cmds as [|cmd rest IH]; intros c Hc.
  - exact Hc.
  - simpl. apply IH. apply Hstep. exact Hc.
Qed.

(** C7: in every state reached from the initial one by any commands,
    [operation] and [previousValue] are both absent or both present; each
    command preserves this. *)
Theorem pending_both_or_neither :
  (forall cmd c, pendingConsistent (state c) ->
                 pendingConsistent (state (execute cmd c)))
  /\ (forall p cmds, pendingConsistent (state (run cmds (createCalculator p)))).
Proof.
  split.
  - exact execute_preserves_pending.
  - intros p cmds.
    apply (run_invariant (fun c => pendingConsistent (state c))).
    + exact execute_preserves_pending.
    + left. split; reflexivity.
Qed.

Lemma pending_both_or_neither_witness :
  pendingConsistent
    (state (execute (ApplyBinaryOperator add "+" false) (createCalculator blankPage))).
Proof.
  apply (proj1 pending_both_or_neither).
  left. split; reflexivity.
Defined.

(** ** Sign toggle *)

(** C8, as the code has it: two sign toggles restore [currentValue] [v]
    whenever [v] is none of "0", "-0" and does not begin with two signs;
    on "0" one toggle changes nothing. *)
Theorem handleSign_twice (c : Calculator) :
  (currentValue (state c) <> "0" ->
   currentValue (state c) <> "-0" ->
   doubleSigned (currentValue (state c)) = false ->
   currentValue (state (handleSign (handleSign c))) = currentValue (state c))
  /\ (currentValue (state c) = "0" -> handleSign c = c).
Proof.
  split.
  - intros H0 Hm0 Hd. unfold handleSign.
    destruct (String.eqb_spec (currentValue (state c)) "0") as [E|_]; [congruence|].
    cbn [state setState updateDisplay currentValue withCurrentValue].
    unfold doubleSigned in Hd.
    destruct (currentValue (state c)) as [|ch r]; [reflexivity|].
    simpl in Hd |- *.
    destruct (Ascii.eqb ch "-") eqn:Ech; simpl in Hd |- *.
    + apply Ascii.eqb_eq in Ech. subst ch.
      destruct (String.eqb_spec r "0") as [->|_]; [congruence|].
      simpl. rewrite Hd. reflexivity.
    + reflexivity.
  - intros E. unfold handleSign. rewrite E. reflexivity.
Qed.

Lemma handleSign_twice_witness :
  currentValue
    (state (handleSign (handleSign (handleNumber "7" (createCalculator blankPage)))))
  = "7"
  /\ handleSign (createCalculator blankPage) = createCalculator blankPage.
Proof.
  split.
  - apply (proj1 (handleSign_twice (handleNumber "7" (createCalculator blankPage))));
      try reflexivity; simpl; discriminate.
  - apply (proj2 (handleSign_twice (createCalculator blankPage))). reflexivity.
Defined.

(** C8 as stated fails at "-0", which the engine reaches from 1 / 2 =,
    a sign change and two backspaces: the first toggle gives "0" and the
    second leaves it. *)
Lemma handleSign_minus_zero_counterexample :
  currentValue (state minusZeroShown) = "-0"
  /\ currentValue (state minusZeroShown) <> "0"
  /\ currentValue (state (handleSign (handleSign minusZeroShown))) = "0"
  /\ currentValue (state (handleSign (handleSign minusZeroShown)))
     <> currentValue (state minusZeroShown).
Proof.
  assert (E : currentValue (state minusZeroShown) = "-0") by (vm_compute; reflexivity).
  assert (E2 : currentValue (state (handleSign (handleSign minusZeroShown))) = "0")
    by (vm_compute; reflexivity).
  rewrite E2, E. repeat split; discriminate.
Qed.

(** ** Failure of [handleOperation] *)

Lemma chaining_division_by_zero_throws (op : Operation) (sym : string)
    (prev : number) (s : CalculatorState) :
  operation s = Some safeDivide ->
  previousValue s = Some prev ->
  shouldResetDisplay s = false ->
  strictEq (parseFloat (currentValue s)) (ofZ 0) = true ->
  handleOperationTry op sym false s = Throw "Cannot divide by zero".
Proof.
  intros Ho Hp Hr Hz. unfold handleOperationTry.
  rewrite Ho, Hp, Hr. simpl.
  unfold safeDivide, withValidation. rewrite Hz. reflexivity.
Qed.

Lemma sqrt_of_negative_throws (sym : string) (s : CalculatorState) :
  lessThan (parseFloat (currentValue s)) (ofZ 0) = true ->
  handleOperationTry safeSqrt sym true s = Throw "Negative number under root".
Proof.
  intros Hn. unfold handleOperationTry. simpl.
  unfold safeSqrt, withValidation. rewrite Hn. reflexivity.
Qed.

Lemma handleOperation_throw (op : Operation) (sym : string) (u : bool)
    (message : string) (c : Calculator) :
  handleOperationTry op sym u (state c) = Throw message ->
  rolledBack message c (handleOperation op sym u c).
Proof.
  intros H. unfold handleOperation. rewrite H.
  unfold rolledBack. simpl. repeat split; reflexivity.
Qed.

(** C4: whenever the [try] block of [handleOperation] throws, the new
    state has [shouldResetDisplay] true and every other field as before,
    and the message goes to the [error] element only.  The two validation
    failures are instances: a division by zero while chaining, and the
    square root of a negative value. *)
Theorem handleOperation_failure_rollback (op : Operation) (sym : string)
    (c : Calculator) :
  (forall u message,
      handleOperationTry op sym u (state c) = Throw message ->
      rolledBack message c (handleOperation op sym u c))
  /\ (forall prev,
      operation (state c) = Some safeDivide ->
      previousValue (state c) = Some prev ->
      shouldResetDisplay (state c) = false ->
      strictEq (parseFloat (currentValue (state c))) (ofZ 0) = true ->
      rolledBack "Cannot divide by zero" c (handleOperation op sym false c))
  /\ (lessThan (parseFloat (currentValue (state c))) (ofZ 0) = true ->
      rolledBack "Negative number under root" c (handleOperation safeSqrt sym true c)).
Proof.
  split; [|split].
  - intros u message. apply handleOperation_throw.
  - intros prev Ho Hp Hr Hz. apply handleOperation_throw.
    eapply chaining_division_by_zero_throws; eauto.
  - intros Hn. apply handleOperation_throw.
    apply sqrt_of_negative_throws. exact Hn.
Qed.

Lemma handleOperation_failure_rollback_witness :
  rolledBack "Cannot divide by zero" aboutToDivideByZero
    (handleOperation multiply "*" false aboutToDivideByZero)
  /\ rolledBack "Negative number under root"
       (handleSign (handleNumber "4" (createCalculator blankPage)))
       (handleOperation safeSqrt "sqrt" true
          (handleSign (handleNumber "4" (createCalculator blankPage)))).
Proof.
  split.
  - apply (proj1 (proj2 (handleOperation_failure_rollback multiply "*"
                           aboutToDivideByZero)) (parseFloat "10"));
      reflexivity.
  - apply (proj2 (proj2 (handleOperation_failure_rollback multiply "sqrt"
                           (handleSign (handleNumber "4" (createCalculator blankPage)))))).
    reflexivity.
Defined.

(** ** The error element *)

Lemma handleNumber_error (d : string) (c : Calculator) :
  error (page (handleNumber d c)) = error (page c).
Proof. unfold handleNumber. destruct (shouldResetDisplay (state c)); reflexivity. Qed.

Lemma handleBackspace_error (c : Calculator) :
  error (page (handleBackspace c)) = error (page c).
Proof.
  unfold handleBackspace.
  destruct ((String.length (currentValue (state c)) =? 1)%nat
            || startsWithMinus (currentValue (state c))
               && (String.length (currentValue (state c)) =? 2)%nat); reflexivity.
Qed.

Lemma handleSign_error (c : Calculator) :
  error (page (handleSign c)) = error (page c).
Proof.
  unfold handleSign. destruct (String.eqb (currentValue (state c)) "0"); reflexivity.
Qed.

Lemma run_editing_error (cmds : list Command) :
  forall c, forallb isEditing cmds = true -> error (page (run cmds c)) = error (page c).
Proof.
  induction cmds as [|cmd rest IH]; intros c H; [reflexivity|].
  simpl in H. apply andb_true_iff in H. destruct H as [Hcmd Hrest].
  simpl. rewrite (IH _ Hrest).
  destruct cmd as [d|op sym u| | | |]; try discriminate Hcmd; simpl.
  - apply handleNumber_error.
  - apply handleBackspace_error.
  - apply handleSign_error.
Qed.

(** C10: the [error] element is emptied by every successful
    [handleOperation], every successful evaluation by [performOperation]
    and every [handleClear]; [handleNumber], [handleBackspace] and
    [handleSign] leave it as it is, so a message persists through any run
    of those three. *)
Theorem error_message_lifecycle (c : Calculator) :
  (forall op sym u,
      returns (handleOperationTry op sym u (state c)) = true ->
      error (page (handleOperation op sym u c)) = "")
  /\ (forall op prev,
      operation (state c) = Some op ->
      previousValue (state c) = Some prev ->
      returns (performOperationTry op prev (state c)) = true ->
      error (page (performOperation c)) = "")
  /\ error (page (handleClear c)) = ""
  /\ (forall d, error (page (handleNumber d c)) = error (page c))
  /\ error (page (handleBackspace c)) = error (page c)
  /\ error (page (handleSign c)) = error (page c)
  /\ (forall cmds, forallb isEditing cmds = true ->
                   error (page (run cmds c)) = error (page c)).
Proof.
  repeat split.
  - intros op sym u H. unfold handleOperation.
    destruct (handleOperationTry op sym u (state c)); [reflexivity | discriminate H].
  - intros op prev Ho Hp H. unfold performOperation. rewrite Ho, Hp.
    destruct (performOperationTry op prev (state c)); [reflexivity | discriminate H].
  - intros d. apply handleNumber_error.
  - apply handleBackspace_error.
  - apply handleSign_error.
  - intros cmds. apply run_editing_error.
Qed.

(** After 5 + 5 / 0 and a failed chaining operator, the message stays
    through three editing commands and goes at the next successful
    operator or evaluation. *)
Lemma error_message_lifecycle_witness :
  error (page failedChaining) = "Cannot divide by zero"
  /\ error (page (run [InputDigit "7"; ToggleSign; Backspace] failedChaining))
     = error (page failedChaining)
  /\ error (page (handleOperation add "+" false failedChaining)) = ""
  /\ error (page (performOperation (handleNumber "2" failedChaining))) = "".
Proof.
  split; [reflexivity|]. split; [|split].
  - apply (proj2 (proj2 (proj2 (proj2 (proj2 (proj2
             (error_message_lifecycle failedChaining)))))));
      reflexivity.
  - apply (proj1 (error_message_lifecycle failedChaining) add "+" false);
      reflexivity.
  - apply (proj1 (proj2 (error_message_lifecycle (handleNumber "2" failedChaining)))
             safeDivide (parseFloat "10"));
      reflexivity.
Defined.

(** ** Two traces from the initial state *)

(** C3: 5, divide, 0, equals.  The message is "Cannot divide by zero", the
    display still shows the "0" just typed, [operation] and
    [previousValue] are what they were before equals (the division and 5),
    and [shouldResetDisplay] is true.  This holds whatever the page showed
    at first and whatever symbol is passed for the operator. *)
Theorem division_by_zero_on_equals (p : Page) (symbol : string) :
  let before :=
    run [InputDigit "5"; ApplyBinaryOperator safeDivide symbol false; InputDigit "0"]
        (createCalculator p) in
  let after :=
    run [InputDigit "5"; ApplyBinaryOperator safeDivide symbol false; InputDigit "0";
         Equals]
        (createCalculator p) in
  error (page after) = "Cannot divide by zero"
  /\ display (page after) = "0"
  /\ display (page after) = display (page before)
  /\ currentValue (state after) = "0"
  /\ operation (state after) = operation (state before)
  /\ operation (state after) = Some safeDivide
  /\ previousValue (state after) = previousValue (state before)
  /\ previousValue (state after) = Some (parseFloat "5")
  /\ shouldResetDisplay (state before) = false
  /\ shouldResetDisplay (state after) = true.
Proof.
  cbv zeta. repeat split; vm_compute; reflexivity.
Qed.

(** C5: 5, add, 3, multiply, 2, equals shows "16": pressing multiply
    evaluates the pending 5 + 3 to 8 first, and equals multiplies that
    by 2. *)
Theorem chaining_left_to_right (p : Page) (plusSymbol timesSymbol : string) :
  let chained :=
    run [InputDigit "5"; ApplyBinaryOperator add plusSymbol false; InputDigit "3";
         ApplyBinaryOperator multiply timesSymbol false]
        (createCalculator p) in
  let final :=
    run [InputDigit "5"; ApplyBinaryOperator add plusSymbol false; InputDigit "3";
         ApplyBinaryOperator multiply timesSymbol false; InputDigit "2"; Equals]
        (createCalculator p) in
  display (page final) = "16"
  /\ currentValue (state final) = "16"
  /\ currentValue (state chained) = "8"
  /\ previousValue (state chained) = Some (plus (parseFloat "5") (parseFloat "3"))
  /\ toString (times (plus (parseFloat "5") (parseFloat "3")) (parseFloat "2")) = "16".
Proof.
  cbv zeta. repeat split; vm_compute; reflexivity.
Qed.

(** ** A unary operator and the pending pair *)

(** C9: [handleOperation] with [isUnary] true (the square root) leaves
    [previousValue] and [operation] as they were, whether the operator
    returns or throws.  When it returns [r], [currentValue] becomes the
    text of [r], and a following [performOperation] applies the pending
    operator to [previousValue] and the number read back from that text. *)
Theorem unary_keeps_pending (op : Operation) (sym : string) (c : Calculator) :
  previousValue (state (handleOperation op sym true c)) = previousValue (state c)
  /\ operation (state (handleOperation op sym true c)) = operation (state c)
  /\ (forall r pending prev,
        op (parseFloat (currentValue (state c))) None = Normal r ->
        operation (state c) = Some pending ->
        previousValue (state c) = Some prev ->
        currentValue (state (handleOperation op sym true c)) = toString r
        /\ (forall result,
              pending prev (Some (parseFloat (toString r))) = Normal result ->
              currentValue (state (performOperation (handleOperation op sym true c)))
              = toString result
              /\ display (page (performOperation (handleOperation op sym true c)))
                 = toString result)
        /\ (forall message,
              pending prev (Some (parseFloat (toString r))) = Throw message ->
              error (page (performOperation (handleOperation op sym true c)))
              = message)).
Proof.
  unfold handleOperation, handleOperationTry. simpl.
  destruct (op (parseFloat (currentValue (state c))) None) as [r0|msg] eqn:E.
  - split; [reflexivity|]. split; [reflexivity|].
    intros r pending prev Hr Ho Hp. inversion Hr; subst r0.
    split; [reflexivity|].
    unfold performOperation, performOperationTry. simpl. rewrite Ho, Hp.
    split.
    + intros result Hres. rewrite Hres. split; reflexivity.
    + intros message Hres. rewrite Hres. reflexivity.
  - split; [reflexivity|]. split; [reflexivity|].
    intros r pending prev Hr. discriminate Hr.
Qed.

(** 9 + 16, square root, equals: 9 + 4 = 13. *)
Lemma unary_keeps_pending_witness :
  currentValue (state (handleOperation safeSqrt "sqrt" true ninePlusSixteen)) = "4"
  /\ currentValue
       (state (performOperation (handleOperation safeSqrt "sqrt" true ninePlusSixteen)))
     = "13".
Proof.
  destruct (proj2 (proj2 (unary_keeps_pending safeSqrt "sqrt" ninePlusSixteen))
              (parseFloat "4") add (parseFloat "9") eq_refl eq_refl eq_refl)
    as [Hshown [Hok _]].
  split.
  - rewrite Hshown. reflexivity.
  - rewrite (proj1 (Hok (parseFloat "13") eq_refl)). reflexivity.
Defined.

(** ** The text of [currentValue] *)

Lemma unsignedHead_signedNonEmpty (s : string) :
  unsignedHead s = true -> signedNonEmpty s = true.
Proof.
  unfold signedNonEmpty. destruct s as [|ch r]; simpl; [discriminate|].
  destruct (Ascii.eqb ch "-"); [discriminate | reflexivity].
Qed.

Lemma isDigitInput_unsignedHead (d : string) :
  isDigitInput d = true -> unsignedHead d = true.
Proof.
  destruct d as [|ch [|ch' r]]; simpl; try discriminate.
  intros H. destruct (Ascii.eqb_spec ch "-") as [->|_]; [discriminate H | reflexivity].
Qed.

Lemma signedNonEmpty_append (s d : string) :
  signedNonEmpty s = true -> signedNonEmpty (s ++ d) = true.
Proof.
  unfold signedNonEmpty. destruct s as [|ch r]; simpl; [discriminate|].
  destruct (Ascii.eqb ch "-"); simpl; [|trivial].
  destruct r as [|ch' r']; simpl; [discriminate | trivial].
Qed.

Lemma signedNonEmpty_dropLast (s : string) :
  signedNonEmpty s = true ->
  (String.length s =? 1)%nat || startsWithMinus s && (String.length s =? 2)%nat = false ->
  signedNonEmpty (dropLast s) = true.
Proof.
  unfold signedNonEmpty, dropLast.
  destruct s as [|ch [|ch' [|ch'' r]]]; simpl; try discriminate.
  - destruct (Ascii.eqb ch "-"); simpl; [discriminate | trivial].
  - destruct (Ascii.eqb ch "-"); simpl; trivial.
Qed.

Lemma signedNonEmpty_toggle (s : string) :
  signedNonEmpty s = true ->
  signedNonEmpty (if startsWithMinus s then dropFirst s else String "-" s) = true.
Proof.
  unfold signedNonEmpty. destruct (startsWithMinus s) eqn:E.
  - intros H. apply unsignedHead_signedNonEmpty in H. exact H.
  - simpl. trivial.
Qed.

Lemma execute_signedNonEmpty (cmd : Command) (c : Calculator) :
  validCommand cmd = true ->
  signedNonEmpty (currentValue (state c)) = true ->
  signedNonEmpty (currentValue (state (execute cmd c))) = true.
Proof.
  intros Hcmd H. destruct cmd as [d|op sym u| | | |]; simpl in Hcmd |- *.
  - pose proof (unsignedHead_signedNonEmpty _ (isDigitInput_unsignedHead _ Hcmd)) as Hd.
    unfold handleNumber. destruct (shouldResetDisplay (state c)); simpl; [exact Hd|].
    destruct (String.eqb (currentValue (state c)) "0"); [exact Hd|].
    apply signedNonEmpty_append. exact H.
  - unfold handleOperation, handleOperationTry.
    destruct u; simpl.
    + destruct (op (parseFloat (currentValue (state c))) None); simpl;
        [apply toString_signedNonEmpty | exact H].
    + destruct (previousValue (state c)) as [prev|]; [|exact H].
      destruct (operation (state c)) as [pending|]; [|exact H].
      destruct (negb (shouldResetDisplay (state c))); [|exact H].
      destruct (pending prev (Some (parseFloat (currentValue (state c))))); simpl;
        [apply toString_signedNonEmpty | exact H].
  - unfold performOperation, performOperationTry.
    destruct (operation (state c)) as [op|]; [|exact H].
    destruct (previousValue (state c)) as [prev|]; [|exact H].
    destruct (op prev (Some (parseFloat (currentValue (state c))))); simpl;
      [apply toString_signedNonEmpty | exact H].
  - unfold handleBackspace.
    destruct ((String.length (currentValue (state c)) =? 1)%nat
              || startsWithMinus (currentValue (state c))
                 && (String.length (currentValue (state c)) =? 2)%nat) eqn:E; simpl.
    + reflexivity.
    + apply signedNonEmpty_dropLast; assumption.
  - unfold handleSign.
    destruct (String.eqb (currentValue (state c)) "0"); [exact H|]. simpl.
    apply signedNonEmpty_toggle. exact H.
  - reflexivity.
Qed.

Lemma run_signedNonEmpty (cmds : list Command) :
  forall c, forallb validCommand cmds = true ->
            signedNonEmpty (currentValue (state c)) = true ->
            signedNonEmpty (currentValue (state (run cmds c))) = true.
Proof.
  induction cmds as [|cmd rest IH]; intros c Hv H; [exact H|].
  simpl in Hv. apply andb_true_iff in Hv. destruct Hv as [Hcmd Hrest].
  simpl. apply IH; [exact Hrest|]. apply execute_signedNonEmpty; assumption.
Qed.

Lemma signedNonEmpty_not_doubleSigned (s : string) :
  signedNonEmpty s = true -> doubleSigned s = false.
Proof.
  unfold signedNonEmpty, doubleSigned. destruct (startsWithMinus s); simpl; [|trivial].
  destruct (dropFirst s) as [|ch r]; simpl; [trivial|].
  destruct (Ascii.eqb ch "-"); [discriminate | trivial].
Qed.

(** No reachable [currentValue] begins with two signs. *)
Lemma reachable_not_doubleSigned (p : Page) (cmds : list Command) :
  forallb validCommand cmds = true ->
  doubleSigned (currentValue (state (run cmds (createCalculator p)))) = false.
Proof.
  intros Hv. apply signedNonEmpty_not_doubleSigned.
  apply run_signedNonEmpty; [exact Hv | reflexivity].
Qed.

(** C2, as the code has it: in every state reached from the initial one
    by commands whose digit inputs are single characters among the digits
    and the point, [currentValue] is never empty: it is one optional sign
    followed by at least one character that is not a sign.  (It need not be
    a numeric literal: the engine appends every point it is given.) *)
Theorem currentValue_never_empty (p : Page) (cmds : list Command) :
  forallb validCommand cmds = true ->
  currentValue (state (run cmds (createCalculator p))) <> ""
  /\ signedNonEmpty (currentValue (state (run cmds (createCalculator p)))) = true.
Proof.
  intros Hv.
  assert (H : signedNonEmpty (currentValue (state (run cmds (createCalculator p)))) = true).
  { apply run_signedNonEmpty; [exact Hv | reflexivity]. }
  split; [|exact H].
  intros E. rewrite E in H. discriminate H.
Qed.

Lemma currentValue_never_empty_witness :
  currentValue
    (state (run [InputDigit "1"; InputDigit "."; InputDigit "."; Backspace; ToggleSign]
                (createCalculator blankPage))) <> ""
  /\ signedNonEmpty
       (currentValue
          (state (run [InputDigit "1"; InputDigit "."; InputDigit "."; Backspace;
                       ToggleSign]
                      (createCalculator blankPage)))) = true.
Proof.
  apply (currentValue_never_empty blankPage
           [InputDigit "1"; InputDigit "."; InputDigit "."; Backspace; ToggleSign]).
  reflexivity.
Defined.

(** C2 as stated fails: 1, point, point are three valid digit inputs and
    leave "1..", which has two points; and a lone point followed by the
    square root leaves "NaN". *)
Lemma currentValue_literal_counterexample :
  forallb validCommand [InputDigit "1"; InputDigit "."; InputDigit "."] = true
  /\ currentValue
       (state (run [InputDigit "1"; InputDigit "."; InputDigit "."]
                   (createCalculator blankPage))) = "1.."
  /\ isNumericLiteral
       (currentValue
          (state (run [InputDigit "1"; InputDigit "."; InputDigit "."]
                      (createCalculator blankPage)))) = false
  /\ forallb validCommand [InputDigit "."; ApplyBinaryOperator safeSqrt "sqrt" true] = true
  /\ currentValue
       (state (run [InputDigit "."; ApplyBinaryOperator safeSqrt "sqrt" true]
                   (createCalculator blankPage))) = "NaN"
  /\ isNumericLiteral "NaN" = false.
Proof.
  repeat split; vm_compute; reflexivity.
Qed.

(** ** Checks of the number model on known values *)

Example parseFloat_toString_samples :
  map (fun s => toString (parseFloat s))
      ["5"; "0.1"; "-2.5"; "5."; ".5"; "1e21"; "123456789012345678901";
       "0.000001"; "0.0000001"; "5e-324"; "1.7976931348623157e308"; "1e400";
       "-Infinity"; "9007199254740993"; "2.2250738585072014e-308"; "-0"; "."; "12px"]
  = ["5"; "0.1"; "-2.5"; "5"; "0.5"; "1e+21"; "123456789012345680000";
     "0.000001"; "1e-7"; "5e-324"; "1.7976931348623157e+308"; "Infinity";
     "-Infinity"; "9007199254740992"; "2.2250738585072014e-308"; "0"; "NaN"; "12"].
Proof. vm_compute. reflexivity. Qed.

Example arithmetic_samples :
  map toString
      [plus (parseFloat "0.1") (parseFloat "0.2");
       minus (parseFloat "0.3") (parseFloat "0.1");
       times (parseFloat "1.1") (parseFloat "1.1");
       over (parseFloat "1") (parseFloat "3");
       Math_sqrt (parseFloat "2");
       Math_sqrt (parseFloat "-0");
       over (parseFloat "1") (parseFloat "0")]
  = ["0.30000000000000004"; "0.19999999999999998"; "1.2100000000000002";
     "0.3333333333333333"; "1.4142135623730951"; "0"; "Infinity"].
Proof. vm_compute. reflexivity. Qed.

(** The two validated operations on the inputs they reject and accept. *)
Example validation_samples :
  safeDivide (parseFloat "5") (Some (parseFloat "0")) = Throw "Cannot divide by zero"
  /\ safeDivide (parseFloat "5") (Some (parseFloat "-0")) = Throw "Cannot divide by zero"
  /\ safeDivide (parseFloat "1") (Some (parseFloat "2")) = Normal (parseFloat "0.5")
  /\ safeSqrt (parseFloat "-4") None = Throw "Negative number under root"
  /\ safeSqrt (parseFloat "16") None = Normal (parseFloat "4")
  /\ safeSqrt (parseFloat "-0") None = Normal (parseFloat "-0").
Proof. repeat split; vm_compute; reflexivity. Qed.

(** * Further properties of the engine *)

Arguments parseFloat : simpl never.
Arguments toString : simpl never.

(** ** Equals *)

(** Pressing equals twice is the same as pressing it once, on every
    state: after a success nothing is pending, after a failure the same
    operands fail again with the same message, and with nothing pending
    neither press does anything. *)
Theorem performOperation_idempotent (c : Calculator) :
  performOperation (performOperation c) = performOperation c.
Proof.
  destruct (operation (state c)) as [op|] eqn:Ho;
    [destruct (previousValue (state c)) as [prev|] eqn:Hp|].
  - destruct (op prev (Some (parseFloat (currentValue (state c))))) as [r|msg] eqn:E.
    + assert (H : operation (state (performOperation c)) = None).
      { unfold performOperation, performOperationTry. rewrite Ho, Hp, E. reflexivity. }
      unfold performOperation at 1. rewrite H. reflexivity.
    + assert (H : performOperation c
                  = setState (withShouldResetDisplay true (state c)) (setError msg c)).
      { unfold performOperation, performOperationTry. rewrite Ho, Hp, E. reflexivity. }
      rewrite H. unfold performOperation, performOperationTry. simpl.
      rewrite Ho, Hp, E. reflexivity.
  - assert (H : performOperation c = c).
    { unfold performOperation. rewrite Ho, Hp. reflexivity. }
    rewrite !H. reflexivity.
  - assert (H : performOperation c = c).
    { unfold performOperation. rewrite Ho. reflexivity. }
    rewrite !H. reflexivity.
Qed.

(** When the pending operator throws on equals, the state keeps the
    pending pair and everything else but the flag, and the message goes to
    the error element.  The evaluation can be retried: the next digit input
    starts a fresh operand, and equals then applies the same pending
    operator to the same left operand. *)
Theorem performOperation_failure_retry (c : Calculator) (op : Operation)
    (prev : number) (message : string) :
  operation (state c) = Some op ->
  previousValue (state c) = Some prev ->
  op prev (Some (parseFloat (currentValue (state c)))) = Throw message ->
  rolledBack message c (performOperation c)
  /\ (forall d result,
        op prev (Some (parseFloat d)) = Normal result ->
        currentValue (state (performOperation (handleNumber d (performOperation c))))
        = toString result
        /\ display (page (performOperation (handleNumber d (performOperation c))))
           = toString result
        /\ error (page (performOperation (handleNumber d (performOperation c)))) = "").
Proof.
  intros Ho Hp E.
  assert (Hfail : performOperation c
                  = setState (withShouldResetDisplay true (state c)) (setError message c)).
  { unfold performOperation, performOperationTry. rewrite Ho, Hp, E. reflexivity. }
  rewrite Hfail. split.
  - unfold rolledBack. simpl. repeat split; reflexivity.
  - intros d result Hres.
    unfold performOperation, performOperationTry, handleNumber. simpl.
    rewrite Ho, Hp, Hres. simpl. repeat split; reflexivity.
Qed.

(** 5 / 0 = fails; typing 2 and pressing equals again gives 2.5. *)
Lemma performOperation_failure_retry_witness :
  rolledBack "Cannot divide by zero"
    (run [InputDigit "5"; ApplyBinaryOperator safeDivide "/" false; InputDigit "0"]
         (createCalculator blankPage))
    (performOperation
       (run [InputDigit "5"; ApplyBinaryOperator safeDivide "/" false; InputDigit "0"]
            (createCalculator blankPage))).
Proof.
  apply (proj1 (performOperation_failure_retry
                  (run [InputDigit "5"; ApplyBinaryOperator safeDivide "/" false;
                        InputDigit "0"]
                       (createCalculator blankPage))
                  safeDivide (parseFloat "5") "Cannot divide by zero"
                  eq_refl eq_refl eq_refl)).
Defined.

(** ** Operator presses *)

(** [handleOperation] fails in exactly two situations: a unary operator
    that throws on the value shown, or a binary press that chains (a pair
    is pending and an operand was typed since) while the pending operator
    throws.  In particular a binary press right after another operator or
    equals, or with nothing pending, never fails. *)
Theorem handleOperation_throws_iff (op : Operation) (sym : string) (u : bool)
    (s : CalculatorState) (message : string) :
  handleOperationTry op sym u s = Throw message
  <-> (u = true /\ op (parseFloat (currentValue s)) None = Throw message)
      \/ (u = false
          /\ shouldResetDisplay s = false
          /\ exists pending prev,
               operation s = Some pending
               /\ previousValue s = Some prev
               /\ pending prev (Some (parseFloat (currentValue s))) = Throw message).
Proof.
  unfold handleOperationTry. split.
  - intros H. destruct u; simpl in H.
    + left. split; [reflexivity|].
      destruct (op (parseFloat (currentValue s)) None);
        [discriminate H | inversion H; reflexivity].
    + right. split; [reflexivity|].
      destruct (previousValue s) as [prev|]; [|discriminate H].
      destruct (operation s) as [pending|]; [|discriminate H].
      destruct (shouldResetDisplay s); [discriminate H|]. simpl in H.
      split; [reflexivity|]. exists pending, prev.
      repeat split.
      destruct (pending prev (Some (parseFloat (currentValue s))));
        [discriminate H | inversion H; reflexivity].
  - intros [[-> H] | [-> [Hr [pending [prev [Ho [Hp H]]]]]]]; simpl.
    + rewrite H. reflexivity.
    + rewrite Hp, Ho, Hr. simpl. rewrite H. reflexivity.
Qed.

(** Two binary operators in a row are evaluated from left to right, with
    no precedence: for any three inputs and any two operators that return
    on them, [a op1 b op2 c =] shows [op2 (op1 a b) c], nothing stays
    pending and the error element is empty.  The intermediate result goes
    on as a number, not as its displayed text. *)
Theorem two_operators_left_to_right (p : Page) (a b c : string)
    (op1 op2 : Operation) (sym1 sym2 : string) (r1 r2 : number) :
  op1 (parseFloat a) (Some (parseFloat b)) = Normal r1 ->
  op2 r1 (Some (parseFloat c)) = Normal r2 ->
  run [InputDigit a; ApplyBinaryOperator op1 sym1 false; InputDigit b;
       ApplyBinaryOperator op2 sym2 false; InputDigit c; Equals]
      (createCalculator p)
  = {| state := {| currentValue := toString r2;
                   previousValue := None;
                   operation := None;
                   shouldResetDisplay := true;
                   currentExpression :=
                     ((a ++ " " ++ sym1) ++ " " ++ toString (parseFloat b) ++ " " ++ sym2)
                       ++ " " ++ toString (parseFloat c) ++ " =" |};
       page := {| display := toString r2;
                  expression :=
                    ((a ++ " " ++ sym1) ++ " " ++ toString (parseFloat b) ++ " " ++ sym2)
                      ++ " " ++ toString (parseFloat c) ++ " =";
                  error := "" |} |}.
Proof.
  intros H1 H2.
  unfold run, fold_left, execute.
  unfold handleNumber at 3. simpl.
  unfold handleOperation at 2, handleOperationTry. simpl.
  unfold handleNumber at 2. simpl.
  unfold handleOperation, handleOperationTry. simpl. rewrite H1. simpl.
  unfold handleNumber. simpl.
  unfold performOperation, performOperationTry. simpl. rewrite H2.
  reflexivity.
Qed.

Lemma two_operators_left_to_right_witness :
  display
    (page (run [InputDigit "7"; ApplyBinaryOperator subtract "-" false; InputDigit "2";
                ApplyBinaryOperator safeDivide "/" false; InputDigit "4"; Equals]
               (createCalculator blankPage)))
  = "1.25".
Proof.
  rewrite (two_operators_left_to_right blankPage "7" "2" "4" subtract safeDivide
             "-" "/" (parseFloat "5") (parseFloat "1.25") eq_refl eq_refl).
  reflexivity.
Defined.

(** ** Page and state *)

Lemma execute_synced (cmd : Command) (c : Calculator) :
  synced c -> synced (execute cmd c).
Proof.
  unfold synced. intros [Hd He].
  destruct cmd as [d|op sym u| | | |]; simpl.
  - unfold handleNumber. destruct (shouldResetDisplay (state c)); split; reflexivity.
  - unfold handleOperation.
    destruct (handleOperationTry op sym u (state c)); simpl; split; auto.
  - unfold performOperation.
    destruct (operation (state c)) as [op|]; [|split; assumption].
    destruct (previousValue (state c)) as [prev|]; [|split; assumption].
    destruct (performOperationTry op prev (state c)); simpl; split; auto.
  - unfold handleBackspace.
    destruct ((String.length (currentValue (state c)) =? 1)%nat
              || startsWithMinus (currentValue (state c))
                 && (String.length (currentValue (state c)) =? 2)%nat);
      split; reflexivity.
  - unfold handleSign.
    destruct (String.eqb (currentValue (state c)) "0"); split; auto.
  - split; reflexivity.
Qed.

(** The display never goes stale: if the page shows the state's
    [currentValue] and [currentExpression], it still does after any command
    and after any sequence of commands, failed ones included. *)
Theorem display_stays_in_sync (c : Calculator) :
  synced c ->
  (forall cmd, synced (execute cmd c))
  /\ (forall cmds, synced (run cmds c)).
Proof.
  intros H. split.
  - intros cmd. apply execute_synced. exact H.
  - intros cmds. apply (run_invariant synced); [exact execute_synced | exact H].
Qed.

Lemma display_stays_in_sync_witness :
  synced (run [InputDigit "4"; ToggleSign; ApplyBinaryOperator safeSqrt "sqrt" true;
               Equals; Backspace]
              (createCalculator {| display := "0"; expression := ""; error := "" |})).
Proof.
  apply (proj2 (display_stays_in_sync
                 (createCalculator {| display := "0"; expression := ""; error := "" |})
                 (conj eq_refl eq_refl))).
Defined.

(** ** Editing the number *)

Lemma substring_prefix (v w : string) :
  String.substring 0 (String.length v) (v ++ w) = v.
Proof.
  induction v as [|a v IH]; simpl.
  - destruct w; reflexivity.
  - rewrite IH. reflexivity.
Qed.

Lemma length_append (v w : string) :
  String.length (v ++ w) = (String.length v + String.length w)%nat.
Proof. induction v as [|a v IH]; simpl; [reflexivity | now rewrite IH]. Qed.

Lemma dropLast_append_char (v : string) (ch : ascii) :
  dropLast (v ++ String ch EmptyString) = v.
Proof.
  unfold dropLast. rewrite length_append. simpl.
  replace (String.length v + 1 - 1)%nat with (String.length v) by lia.
  apply substring_prefix.
Qed.

Lemma append_assoc (u v w : string) : (u ++ v) ++ w = u ++ (v ++ w).
Proof. induction u as [|a u IH]; simpl; [reflexivity | now rewrite IH]. Qed.

Lemma backspace_drops_typed_char (v : string) (ch : ascii) :
  signedNonEmpty v = true ->
  (String.length (v ++ String ch EmptyString) =? 1)%nat
  || startsWithMinus (v ++ String ch EmptyString)
     && (String.length (v ++ String ch EmptyString) =? 2)%nat = false.
Proof.
  unfold signedNonEmpty.
  destruct v as [|a [|b v'']]; simpl.
  - discriminate.
  - destruct (Ascii.eqb a "-"); simpl; [discriminate | reflexivity].
  - intros _. rewrite length_append. simpl.
    rewrite PeanoNat.Nat.add_1_r. simpl. apply andb_false_r.
Qed.

(** Backspace undoes a digit: when a number is being typed
    ([shouldResetDisplay] false) and [currentValue] is well formed (not
    empty, not a lone sign), typing one character and pressing backspace
    gives back the very same state, and the display shows the old value.
    This covers "0", where the character replaces the zero and backspace
    puts the zero back. *)
Theorem handleBackspace_undoes_digit (c : Calculator) (ch : ascii) :
  shouldResetDisplay (state c) = false ->
  signedNonEmpty (currentValue (state c)) = true ->
  state (handleBackspace (handleNumber (String ch EmptyString) c)) = state c
  /\ display (page (handleBackspace (handleNumber (String ch EmptyString) c)))
     = currentValue (state c).
Proof.
  destruct c as [[v prev op reset expr] pg]. simpl. intros -> Hv.
  unfold handleNumber, handleBackspace. simpl.
  destruct (String.eqb_spec v "0") as [->|Hz].
  - simpl. split; reflexivity.
  - simpl. rewrite (backspace_drops_typed_char v ch Hv). simpl.
    rewrite dropLast_append_char. split; reflexivity.
Qed.

Lemma handleBackspace_undoes_digit_witness :
  state (handleBackspace (handleNumber "3" (handleSign (handleNumber "5"
           (createCalculator blankPage)))))
  = state (handleSign (handleNumber "5" (createCalculator blankPage))).
Proof.
  apply (proj1 (handleBackspace_undoes_digit
                  (handleSign (handleNumber "5" (createCalculator blankPage))) "3"
                  eq_refl eq_refl)).
Defined.

Lemma length_dropLast (s : string) :
  String.length (dropLast s) = (String.length s - 1)%nat.
Proof.
  unfold dropLast.
  assert (H : forall n t, (n <= String.length t)%nat ->
                          String.length (String.substring 0 n t) = n).
  { induction n as [|n IH]; intros t Hn.
    - destruct t; reflexivity.
    - destruct t as [|a t]; simpl in Hn |- *; [lia|].
      rewrite IH; [reflexivity | lia]. }
  apply H. lia.
Qed.

Lemma backspaces_reach_zero (n : nat) :
  forall c,
    (1 <= String.length (currentValue (state c)) <= n)%nat ->
    currentValue (state (run (repeat Backspace n) c)) = "0".
Proof.
  induction n as [|n IH]; intros c Hlen; [lia|].
  simpl.
  assert (Hstep : currentValue (state (handleBackspace c)) = "0"
                  \/ String.length (currentValue (state (handleBackspace c)))
                     = (String.length (currentValue (state c)) - 1)%nat
                     /\ (2 <= String.length (currentValue (state c)))%nat).
  { unfold handleBackspace.
    destruct (String.length (currentValue (state c)) =? 1)%nat eqn:E1; simpl.
    - left. reflexivity.
    - destruct (startsWithMinus (currentValue (state c))
                && (String.length (currentValue (state c)) =? 2)%nat); simpl.
      + left. reflexivity.
      + right. rewrite length_dropLast. apply PeanoNat.Nat.eqb_neq in E1. lia. }
  destruct n as [|n'].
  - destruct Hstep as [H | [_ H]]; [exact H | lia].
  - apply IH. destruct Hstep as [H | [H H2]].
    + rewrite H. simpl. lia.
    + rewrite H. lia.
Qed.

(** Backspace wears any entry down to "0": from a non-empty
    [currentValue] of length [n], pressing backspace [n] times or more
    leaves exactly "0" (never the empty text, never a lone sign). *)
Theorem backspace_clears_entry (c : Calculator) (n : nat) :
  currentValue (state c) <> "" ->
  (String.length (currentValue (state c)) <= n)%nat ->
  currentValue (state (run (repeat Backspace n) c)) = "0".
Proof.
  intros Hne Hn. apply backspaces_reach_zero.
  destruct (currentValue (state c)); [congruence | simpl in *; lia].
Qed.

Lemma backspace_clears_entry_witness :
  currentValue
    (state (run (repeat Backspace 4)
                (run [InputDigit "1"; InputDigit "2"; InputDigit "."; ToggleSign]
                     (createCalculator blankPage))))
  = "0".
Proof.
  apply (backspace_clears_entry
           (run [InputDigit "1"; InputDigit "2"; InputDigit "."; ToggleSign]
                (createCalculator blankPage)) 4).
  - simpl. discriminate.
  - simpl. lia.
Defined.

Lemma append_empty_r (v : string) : v ++ "" = v.
Proof. induction v as [|a v IH]; simpl; [reflexivity | now rewrite IH]. Qed.

Lemma typing_appends (ds : list string) :
  forall c,
    shouldResetDisplay (state c) = false ->
    currentValue (state c) <> "" ->
    currentValue (state c) <> "0" ->
    currentValue (state (run (map InputDigit ds) c))
    = currentValue (state c) ++ joined ds
    /\ shouldResetDisplay (state (run (map InputDigit ds) c)) = false.
Proof.
  induction ds as [|d ds IH]; intros c Hr Hne Hz; simpl.
  - split; [|exact Hr]. symmetry. apply append_empty_r.
  - assert (Hcv : currentValue (state (handleNumber d c)) = currentValue (state c) ++ d).
    { unfold handleNumber. rewrite Hr.
      destruct (String.eqb_spec (currentValue (state c)) "0"); [contradiction|].
      reflexivity. }
    assert (Hr' : shouldResetDisplay (state (handleNumber d c)) = false).
    { unfold handleNumber. rewrite Hr. exact Hr. }
    destruct (IH (handleNumber d c) Hr') as [Hv Hf].
    + rewrite Hcv. destruct (currentValue (state c)); [congruence | discriminate].
    + rewrite Hcv. destruct (currentValue (state c)) as [|a [|b v]]; simpl;
        try congruence; destruct d; simpl; congruence.
    + split; [|exact Hf]. rewrite Hv, Hcv. apply append_assoc.
Qed.

(** Digit entry is concatenation without a leading zero.  While a number
    is being typed ([shouldResetDisplay] false): if [currentValue] is
    neither empty nor "0", a run of inputs appends them all in order; on
    "0" the first input replaces the zero, so any number of "0" inputs
    leaves "0". *)
Theorem typing_concatenates (c : Calculator) :
  shouldResetDisplay (state c) = false ->
  (currentValue (state c) <> "" ->
   currentValue (state c) <> "0" ->
   forall ds, currentValue (state (run (map InputDigit ds) c))
              = currentValue (state c) ++ joined ds)
  /\ (currentValue (state c) = "0" ->
      forall n, currentValue (state (run (repeat (InputDigit "0") n) c)) = "0").
Proof.
  intros Hr. split.
  - intros Hne Hz ds. apply typing_appends; assumption.
  - intros Hz n. revert c Hr Hz.
    induction n as [|n IH]; intros c Hr Hz; simpl; [exact Hz|].
    apply IH; unfold handleNumber; rewrite Hr, ?Hz; simpl; auto.
Qed.

Lemma typing_concatenates_witness :
  currentValue
    (state (run (map InputDigit ["2"; "."; "5"])
                (handleNumber "1" (createCalculator blankPage))))
  = "12.5".
Proof.
  apply (proj1 (typing_concatenates (handleNumber "1" (createCalculator blankPage))
                  eq_refl));
    simpl; discriminate.
Defined.

Lemma run_editing_frame (cmds : list Command) :
  forall c, forallb isEditing cmds = true ->
    previousValue (state (run cmds c)) = previousValue (state c)
    /\ operation (state (run cmds c)) = operation (state c)
    /\ currentExpression (state (run cmds c)) = currentExpression (state c).
Proof.
  induction cmds as [|cmd rest IH]; intros c H; [repeat split|].
  simpl in H. apply andb_true_iff in H. destruct H as [Hcmd Hrest].
  simpl. destruct (IH (execute cmd c) Hrest) as [Hp [Ho He]].
  rewrite Hp, Ho, He.
  destruct cmd as [d|op sym u| | | |]; try discriminate Hcmd; simpl.
  - unfold handleNumber. destruct (shouldResetDisplay (state c)); repeat split.
  - unfold handleBackspace.
    destruct ((String.length (currentValue (state c)) =? 1)%nat
              || startsWithMinus (currentValue (state c))
                 && (String.length (currentValue (state c)) =? 2)%nat); repeat split.
  - unfold handleSign.
    destruct (String.eqb (currentValue (state c)) "0"); repeat split.
Qed.

(** Editing never touches the computation: any run of digit inputs,
    backspaces and sign toggles leaves [previousValue], [operation] and
    [currentExpression] as they were, so the pending operator and its left
    operand survive any amount of retyping. *)
Theorem editing_keeps_computation (cmds : list Command) (c : Calculator) :
  forallb isEditing cmds = true ->
  previousValue (state (run cmds c)) = previousValue (state c)
  /\ operation (state (run cmds c)) = operation (state c)
  /\ currentExpression (state (run cmds c)) = currentExpression (state c).
Proof. apply run_editing_frame. Qed.

Lemma editing_keeps_computation_witness :
  previousValue
    (state (run [InputDigit "7"; Backspace; InputDigit "8"; ToggleSign] ninePlusSixteen))
  = previousValue (state ninePlusSixteen)
  /\ operation
       (state (run [InputDigit "7"; Backspace; InputDigit "8"; ToggleSign] ninePlusSixteen))
     = operation (state ninePlusSixteen)
  /\ currentExpression
       (state (run [InputDigit "7"; Backspace; InputDigit "8"; ToggleSign] ninePlusSixteen))
     = currentExpression (state ninePlusSixteen).
Proof.
  apply (editing_keeps_computation
           [InputDigit "7"; Backspace; InputDigit "8"; ToggleSign] ninePlusSixteen).
  reflexivity.
Defined.

(** ** Clear *)

(** Clear forgets everything: whatever the calculator and the page held
    and whatever commands ran before, what follows a clear is the same as
    what follows a clear of any other calculator. *)
Theorem clear_forgets_history (before after : list Command) (c1 c2 : Calculator) :
  run (before ++ Clear :: after) c1 = run (Clear :: after) c2.
Proof.
  rewrite run_app. reflexivity.
Qed.

(** ** The sign toggle and the value read back *)








(** ** What the validated operations return *)

Section RoundingKeepsSign.

Local Open Scope Z_scope.

Variables pr em : Z.

Lemma shr_1_nonneg (mrs : shr_record) : 0 <= shr_m mrs -> 0 <= shr_m (shr_1 mrs).
Proof.
  destruct mrs as [m r s]. simpl.
  destruct m as [|p|p]; [| destruct p | destruct p]; simpl; lia.
Qed.

Lemma iter_pos_invariant (A : Type) (f : A -> A) (P : A -> Prop) :
  (forall x, P x -> P (f x)) -> forall p x, P x -> P (iter_pos f p x).
Proof.
  intros Hf. induction p as [p IH|p IH|]; intros x Hx; simpl; auto.
Qed.

Lemma shr_nonneg (mrs : shr_record) (e n : Z) :
  0 <= shr_m mrs -> 0 <= shr_m (fst (shr mrs e n)).
Proof.
  intros H. unfold shr. destruct n as [|p|p]; simpl; try exact H.
  apply (iter_pos_invariant shr_record shr_1 (fun r => 0 <= shr_m r));
    [exact shr_1_nonneg | exact H].
Qed.

Lemma shr_fexp_nonneg (m e : Z) (l : location) :
  0 <= m -> 0 <= shr_m (fst (shr_fexp pr em m e l)).
Proof.
  intros H. unfold shr_fexp. apply shr_nonneg.
  destruct l as [|[| |]]; exact H.
Qed.

Lemma round_nearest_even_nonneg (m : Z) (l : location) :
  0 <= m -> 0 <= round_nearest_even m l.
Proof.
  intros H. destruct l as [|[| |]]; simpl; try destruct (Z.even m); lia.
Qed.

Lemma binary_round_aux_not_nan (sx : bool) (mx ex : Z) (lx : location) :
  0 <= mx -> binary_round_aux pr em sx mx ex lx <> S754_nan.
Proof.
  intros H. unfold binary_round_aux.
  pose proof (shr_fexp_nonneg mx ex lx H) as H1.
  destruct (shr_fexp pr em mx ex lx) as [mrs' e']. simpl in H1.
  pose proof (shr_fexp_nonneg (round_nearest_even (shr_m mrs') (loc_of_shr_record mrs'))
                e' loc_Exact (round_nearest_even_nonneg _ _ H1)) as H2.
  destruct (shr_fexp pr em _ e' loc_Exact) as [mrs'' e'']. simpl in H2.
  destruct (shr_m mrs'') as [|p|p]; try discriminate; [|lia].
  destruct (e'' <=? em - pr); discriminate.
Qed.

End RoundingKeepsSign.

Lemma Math_sqrt_not_nan (m : positive) (e : Z) :
  Math_sqrt (S754_finite false m e) <> NaN.
Proof.
  unfold Math_sqrt, SFsqrt.
  destruct (SFsqrt_core_binary prec emax (Z.pos m) e) as [[q e'] l] eqn:E.
  apply binary_round_aux_not_nan.
  unfold SFsqrt_core_binary in E.
  match type of E with
  | context [Z.sqrtrem ?x] =>
      pose proof (Z.sqrtrem_spec x) as Hs; destruct (Z.sqrtrem x) as [q0 r0] eqn:Eq
  end.
  inversion E; subst q0.
  destruct (Z_le_gt_dec 0 q) as [Hq|Hq]; [exact Hq|].
  exfalso.
  match type of Eq with
  | Z.sqrtrem ?x = _ =>
      destruct (Z_le_gt_dec 0 x) as [Hx|Hx];
      [ specialize (Hs Hx); lia
      | destruct x; try lia; simpl in Eq; inversion Eq; lia ]
  end.
Qed.

Lemma over_finite_not_nan (sx sy : bool) (mx my : positive) (ex ey : Z) :
  over (S754_finite sx mx ex) (S754_finite sy my ey) <> NaN.
Proof.
  unfold over, SFdiv.
  destruct (SFdiv_core_binary prec emax (Z.pos mx) ex (Z.pos my) ey) as [[q e'] l] eqn:E.
  apply binary_round_aux_not_nan.
  unfold SFdiv_core_binary in E.
  match type of E with
  | context [Z.div_eucl ?x ?y] =>
      assert (Hx : (0 <= x)%Z);
      [ | pose proof (Z.div_pos x y Hx ltac:(lia)) as Hq;
          unfold Z.div in Hq; destruct (Z.div_eucl x y) as [q0 r0] ]
  end.
  - match goal with
    | |- (0 <= match ?sh with _ => _ end)%Z =>
        destruct sh; try lia; apply Z.shiftl_nonneg; lia
    end.
  - inversion E; subst. exact Hq.
Qed.

(** The square root with validation: a negative operand is refused with
    the message, every other operand is passed to [Math.sqrt], and the
    answer is NaN only if the operand already was NaN.  The second argument
    plays no part. *)
Theorem safeSqrt_outcomes (a : number) (b : option number) :
  (lessThan a (ofZ 0) = true ->
   safeSqrt a b = Throw "Negative number under root")
  /\ (lessThan a (ofZ 0) = false ->
      safeSqrt a b = Normal (Math_sqrt a)
      /\ (Math_sqrt a = NaN -> a = NaN)).
Proof.
  unfold safeSqrt, withValidation, sqrt. split; intros H; rewrite H.
  - reflexivity.
  - split; [reflexivity|].
    destruct a as [s|s| |s m e]; try reflexivity.
    + destruct s; discriminate.
    + destruct s; [discriminate H | discriminate].
    + destruct s; [discriminate H|].
      intros E. exfalso. exact (Math_sqrt_not_nan m e E).
Qed.

Lemma safeSqrt_outcomes_witness :
  safeSqrt (parseFloat "-4") None = Throw "Negative number under root"
  /\ safeSqrt (parseFloat "2") None = Normal (Math_sqrt (parseFloat "2")).
Proof.
  split.
  - apply (proj1 (safeSqrt_outcomes (parseFloat "-4") None)). reflexivity.
  - apply (proj2 (safeSqrt_outcomes (parseFloat "2") None)). reflexivity.
Defined.

(** The division with validation: a divisor equal to zero (of either
    sign) is refused with the message whatever the dividend; any other
    divisor is passed to the division, whose answer is then NaN only if an
    operand is NaN or both are infinite. *)
Theorem safeDivide_outcomes (a b : number) :
  (strictEq b (ofZ 0) = true ->
   safeDivide a (Some b) = Throw "Cannot divide by zero")
  /\ (strictEq b (ofZ 0) = false ->
      safeDivide a (Some b) = Normal (over a b)
      /\ (over a b = NaN ->
          a = NaN \/ b = NaN \/ (isInfinite a = true /\ isInfinite b = true))).
Proof.
  unfold safeDivide, withValidation, divide. split; intros H; rewrite H.
  - reflexivity.
  - split; [reflexivity|].
    destruct b as [sb|sb| |sb mb eb]; try (now auto);
      try (destruct sb; discriminate H);
      destruct a as [sa|sa| |sa ma ea]; try (now auto);
      try (simpl; discriminate).
    intros E. exfalso. exact (over_finite_not_nan sa sb ma mb ea eb E).
Qed.

Lemma safeDivide_outcomes_witness :
  safeDivide (parseFloat "5") (Some (parseFloat "-0")) = Throw "Cannot divide by zero"
  /\ safeDivide (parseFloat "1") (Some (parseFloat "3"))
     = Normal (over (parseFloat "1") (parseFloat "3")).
Proof.
  split.
  - apply (proj1 (safeDivide_outcomes (parseFloat "5") (parseFloat "-0"))). reflexivity.
  - apply (proj2 (safeDivide_outcomes (parseFloat "1") (parseFloat "3"))). reflexivity.
Defined.

(** ** What follows an operator press *)

(** Changing one's mind about the operator: a binary operator pressed
    right after another successful operator press replaces it without
    evaluating anything.  The value shown stays, it becomes the left
    operand again (re-read from its text), the new operator is the pending
    one, and the error element is empty. *)
Theorem operator_replaced (c : Calculator) (op1 op2 : Operation)
    (sym1 sym2 : string) (u1 : bool) :
  returns (handleOperationTry op1 sym1 u1 (state c)) = true ->
  let c1 := handleOperation op1 sym1 u1 c in
  let c2 := handleOperation op2 sym2 false c1 in
  currentValue (state c2) = currentValue (state c1)
  /\ operation (state c2) = Some op2
  /\ previousValue (state c2) = Some (parseFloat (currentValue (state c1)))
  /\ currentExpression (state c2) = currentValue (state c1) ++ " " ++ sym2
  /\ shouldResetDisplay (state c2) = true
  /\ error (page c2) = "".
Proof.
  intros Hok c1 c2.
  assert (Hflag : shouldResetDisplay (state c1) = true).
  { unfold c1, handleOperation.
    destruct (handleOperationTry op1 sym1 u1 (state c)) as [s'|msg] eqn:E;
      [|discriminate Hok].
    simpl. unfold handleOperationTry in E.
    destruct u1; simpl in E.
    - destruct (op1 (parseFloat (currentValue (state c))) None); inversion E; reflexivity.
    - destruct (previousValue (state c)) as [prev|]; [|inversion E; reflexivity].
      destruct (operation (state c)) as [pending|]; [|inversion E; reflexivity].
      destruct (negb (shouldResetDisplay (state c))); [|inversion E; reflexivity].
      destruct (pending prev (Some (parseFloat (currentValue (state c)))));
        inversion E; reflexivity. }
  assert (Htry : handleOperationTry op2 sym2 false (state c1)
                 = Normal {| currentValue := currentValue (state c1);
                             previousValue := Some (parseFloat (currentValue (state c1)));
                             operation := Some op2;
                             shouldResetDisplay := true;
                             currentExpression :=
                               currentValue (state c1) ++ " " ++ sym2 |}).
  { unfold handleOperationTry. rewrite Hflag. simpl.
    destruct (previousValue (state c1)); [destruct (operation (state c1))|]; reflexivity. }
  unfold c2, handleOperation. rewrite Htry. simpl.
  split; [reflexivity|]. split; [reflexivity|]. split; [reflexivity|].
  split; [reflexivity|]. split; reflexivity.
Qed.

(** 5 + 3, then multiply, then minus instead: 8 - is pending. *)
Lemma operator_replaced_witness :
  currentValue
    (state (handleOperation subtract "-" false
              (handleOperation multiply "*" false
                 (run [InputDigit "5"; ApplyBinaryOperator add "+" false; InputDigit "3"]
                      (createCalculator blankPage)))))
  = "8".
Proof.
  rewrite (proj1 (operator_replaced
                    (run [InputDigit "5"; ApplyBinaryOperator add "+" false;
                          InputDigit "3"]
                         (createCalculator blankPage))
                    multiply subtract "*" "-" false eq_refl)).
  reflexivity.
Defined.

(** After any operator press, successful or failed, and after any equals
    that had a pending operation, the next input starts a fresh number: it
    replaces the value shown, whatever that was. *)
Theorem fresh_entry_after_operator (c : Calculator) (d : string) :
  (forall op sym u,
      currentValue (state (handleNumber d (handleOperation op sym u c))) = d)
  /\ (operation (state c) <> None ->
      previousValue (state c) <> None ->
      currentValue (state (handleNumber d (performOperation c))) = d).
Proof.
  split.
  - intros op sym u.
    assert (Hflag : shouldResetDisplay (state (handleOperation op sym u c)) = true).
    { unfold handleOperation.
      destruct (handleOperationTry op sym u (state c)) as [s'|msg] eqn:E; [|reflexivity].
      simpl. unfold handleOperationTry in E.
      destruct u; simpl in E.
      - destruct (op (parseFloat (currentValue (state c))) None); inversion E; reflexivity.
      - destruct (previousValue (state c)) as [prev|]; [|inversion E; reflexivity].
        destruct (operation (state c)) as [pending|]; [|inversion E; reflexivity].
        destruct (negb (shouldResetDisplay (state c))); [|inversion E; reflexivity].
        destruct (pending prev (Some (parseFloat (currentValue (state c)))));
          inversion E; reflexivity. }
    unfold handleNumber. rewrite Hflag. reflexivity.
  - intros Ho Hp.
    assert (Hflag : shouldResetDisplay (state (performOperation c)) = true).
    { unfold performOperation, performOperationTry.
      destruct (operation (state c)) as [op|]; [|congruence].
      destruct (previousValue (state c)) as [prev|]; [|congruence].
      destruct (op prev (Some (parseFloat (currentValue (state c))))); reflexivity. }
    unfold handleNumber. rewrite Hflag. reflexivity.
Qed.

Lemma fresh_entry_after_operator_witness :
  currentValue (state (handleNumber "4" (performOperation aboutToDivideByZero))) = "4".
Proof.
  apply (proj2 (fresh_entry_after_operator aboutToDivideByZero "4")); discriminate.
Defined.

(** * The page adapter *)

Lemma hasDigitOrPoint_single (key : string) :
  isDigitInput key = true -> hasDigitOrPoint key = true.
Proof.
  destruct key as [|ch [|ch' r]]; simpl; try discriminate.
  unfold hasDigitOrPoint. simpl. intros ->. reflexivity.
Qed.

Lemma countPoints_append (v w : string) :
  countPoints (v ++ w) = (countPoints v + countPoints w)%nat.
Proof.
  unfold countPoints. induction v as [|a v IH]; simpl; [reflexivity|].
  destruct (Ascii.eqb a "."); simpl; rewrite IH; reflexivity.
Qed.

Lemma includesPoint_false_countPoints (s : string) :
  includesPoint s = false -> countPoints s = 0%nat.
Proof.
  unfold includesPoint, countPoints. induction s as [|a s IH]; simpl; [reflexivity|].
  destruct (Ascii.eqb a "."); simpl; [discriminate | exact IH].
Qed.

Lemma countPoints_digit_input (key : string) :
  isDigitInput key = true ->
  (countPoints key <= 1)%nat
  /\ (String.eqb key "." = false -> countPoints key = 0%nat).
Proof.
  destruct key as [|ch [|ch' r]]; simpl; try discriminate.
  intros _. unfold countPoints. simpl.
  destruct (Ascii.eqb_spec ch ".") as [->|Hne]; simpl.
  - split; [lia | discriminate].
  - split; [lia | reflexivity].
Qed.

Section AdapterFacts.

Variable Math_pow : number -> number -> number.
Variable hasOperationButton : string -> bool.



Lemma handleKeyPress_digit_points (key : string) (c : Calculator) :
  isDigitInput key = true ->
  (countPoints (currentValue (state c)) <= 1)%nat ->
  exists c',
    handleKeyPress Math_pow hasOperationButton key c = Some (true, c')
    /\ (countPoints (currentValue (state c')) <= 1)%nat.
Proof.
  intros Hkey Hc. unfold handleKeyPress.
  rewrite (hasDigitOrPoint_single key Hkey).
  destruct (countPoints_digit_input key Hkey) as [Hk1 Hk0].
  destruct (String.eqb key ".") eqn:Ep; simpl.
  - destruct (includesPoint (currentValue (state c))) eqn:Ei.
    + exists c. split; [reflexivity | exact Hc].
    + exists (handleNumber key c). split; [reflexivity|].
      unfold handleNumber.
      destruct (shouldResetDisplay (state c)); simpl; [exact Hk1|].
      destruct (String.eqb (currentValue (state c)) "0"); [exact Hk1|].
      rewrite countPoints_append, (includesPoint_false_countPoints _ Ei). exact Hk1.
  - exists (handleNumber key c). split; [reflexivity|].
    specialize (Hk0 eq_refl). unfold handleNumber.
    destruct (shouldResetDisplay (state c)); simpl; [lia|].
    destruct (String.eqb (currentValue (state c)) "0"); [lia|].
    rewrite countPoints_append. lia.
Qed.

(** Typing on the keyboard never makes a second decimal point: if
    [currentValue] has at most one point, then after any sequence of
    one-character digit and point keys it still has at most one (the same
    inputs clicked on the page's buttons can give "1.."). *)
Theorem keyboard_single_point (keys : list string) (c : Calculator) :
  forallb isDigitInput keys = true ->
  (countPoints (currentValue (state c)) <= 1)%nat ->
  exists c',
    pressKeys Math_pow hasOperationButton keys c = Some c'
    /\ (countPoints (currentValue (state c')) <= 1)%nat.
Proof.
  revert c. induction keys as [|key rest IH]; intros c Hkeys Hc.
  - exists c. split; [reflexivity | exact Hc].
  - simpl in Hkeys. apply andb_true_iff in Hkeys. destruct Hkeys as [Hkey Hrest].
    destruct (handleKeyPress_digit_points key c Hkey Hc) as [c1 [H1 Hc1]].
    simpl. rewrite H1. apply IH; assumption.
Qed.

(** The point key is ignored whenever the text shown has a point, also
    when [shouldResetDisplay] is set and the next input starts a new
    number.  So after an operator, with an operand such as "1.5" still
    shown, the keys point and digit [d] enter [d], while the same two
    buttons enter ".d". *)
Theorem point_key_ignored_after_operator (c : Calculator) (ch : ascii) :
  shouldResetDisplay (state c) = true ->
  includesPoint (currentValue (state c)) = true ->
  isDigit ch = true ->
  (exists c',
      pressKeys Math_pow hasOperationButton ["."; String ch EmptyString] c = Some c'
      /\ currentValue (state c') = String ch EmptyString)
  /\ currentValue (state (run [InputDigit "."; InputDigit (String ch EmptyString)] c))
     = String "." (String ch EmptyString).
Proof.
  intros Hr Hp Hd. split.
  - assert (Hne : Ascii.eqb ch "." = false).
    { destruct (Ascii.eqb_spec ch ".") as [->|_]; [discriminate Hd | reflexivity]. }
    exists (handleNumber (String ch EmptyString) c). split.
    + simpl. unfold handleKeyPress at 1.
      change (hasDigitOrPoint ".") with true. rewrite Hp. simpl.
      unfold handleKeyPress, hasDigitOrPoint. simpl. rewrite Hd, Hne. reflexivity.
    + unfold handleNumber. rewrite Hr. reflexivity.
  - simpl. unfold handleNumber. rewrite Hr. reflexivity.
Qed.

End AdapterFacts.


Lemma keyboard_single_point_witness :
  exists c',
    pressKeys (fun a _ => a) (fun _ => true) ["1"; "."; "."; "5"; "."]
              (createCalculator blankPage) = Some c'
    /\ (countPoints (currentValue (state c')) <= 1)%nat.
Proof.
  apply (keyboard_single_point (fun a _ => a) (fun _ => true)
           ["1"; "."; "."; "5"; "."] (createCalculator blankPage)).
  - reflexivity.
  - exact (le_S 0 0 (le_n 0)).
Defined.

(** 1.5 and an operator, then point and 5. *)
Lemma point_key_ignored_after_operator_witness :
  currentValue
    (state (run [InputDigit "."; InputDigit "5"]
                (run [InputDigit "1"; InputDigit "."; InputDigit "5";
                      ApplyBinaryOperator add "+" false]
                     (createCalculator blankPage))))
  = ".5".
Proof.
  apply (proj2 (point_key_ignored_after_operator (fun a _ => a) (fun _ => true)
                  (run [InputDigit "1"; InputDigit "."; InputDigit "5";
                        ApplyBinaryOperator add "+" false]
                       (createCalculator blankPage))
                  "5" eq_refl eq_refl eq_refl)).
Defined.
